(** * Session and token lifecycle of the user controller

    A shallow embedding of the user controller (registerUser, loginUser,
    logoutUser, refreshAccessToken, updatePassword and their helper
    generateAccessAndRefreshToken) as functions in a state-and-exception
    monad over the collection of user documents, followed by the properties
    of the lifecycle that the specification states. *)

From Stdlib Require Import String Ascii List Bool Arith Lia.
#[local] Set Warnings "-register-all".
Import ListNotations.
Open Scope string_scope.
Open Scope list_scope.
Open Scope nat_scope.

(** ** JavaScript values and string methods *)

Module Js.

(** The values a text field of a request, or a field of a document, can
    hold: a key that is absent reads as [VUndefined]. *)
Inductive Value : Type :=
| VUndefined
| VNull
| VString (s : string).

(** Truthiness, as used by [!x], [x || y] and [if (x)]. *)
Definition truthy (v : Value) : bool :=
  match v with
  | VString s => negb (String.eqb s "")
  | _ => false
  end.

(** [a || b]. *)
Definition or (a b : Value) : Value := if truthy a then a else b.

(** [a === b]. *)
Definition strict_eq (a b : Value) : bool :=
  match a, b with
  | VUndefined, VUndefined => true
  | VNull, VNull => true
  | VString s, VString t => String.eqb s t
  | _, _ => false
  end.

(** White space in the sense of [String.prototype.trim], on ASCII text:
    tab, line feed, vertical tab, form feed, carriage return, space. *)
Definition is_whitespace (c : ascii) : bool :=
  let n := nat_of_ascii c in ((9 <=? n) && (n <=? 13)) || (n =? 32).

Fixpoint trimStart (s : string) : string :=
  match s with
  | EmptyString => EmptyString
  | String c r => if is_whitespace c then trimStart r else s
  end.

Fixpoint trimEnd (s : string) : string :=
  match s with
  | EmptyString => EmptyString
  | String c r =>
      match trimEnd r with
      | EmptyString => if is_whitespace c then EmptyString else String c EmptyString
      | r' => String c r'
      end
  end.

Definition trim (s : string) : string := trimEnd (trimStart s).

Definition lower_ascii (c : ascii) : ascii :=
  let n := nat_of_ascii c in
  if (65 <=? n) && (n <=? 90) then ascii_of_nat (n + 32) else c.

Fixpoint toLowerCase (s : string) : string :=
  match s with
  | EmptyString => EmptyString
  | String c r => String (lower_ascii c) (toLowerCase r)
  end.

End Js.
Import Js.

(** ** Exceptions and handler outcomes *)

(** What a handler can throw: the controller's own [ApiError], a
    [TypeError] of the language, or an error object of a library (the JWT
    library, the document store). *)
Inductive Exn : Type :=
| ApiError (statusCode : nat) (message : string)
| TypeError (message : string)
| LibError (name message : string).

(** [error.message]. *)
Definition exn_message (e : Exn) : string :=
  match e with
  | ApiError _ m => m
  | TypeError m => m
  | LibError _ m => m
  end.

Inductive Outcome (A : Type) : Type :=
| Return (a : A)
| Throw (e : Exn).
Arguments Return {A} a.
Arguments Throw {A} e.

(** ** Documents, requests and responses *)

Module UserDoc.
(** A document of the user collection.  [refreshToken] is [VUndefined]
    when the field is absent from the document. *)
Record t : Type := mk {
  _id : nat;
  username : string;
  email : string;
  fullName : string;
  avatar : string;
  coverImage : string;
  password : string;
  refreshToken : Value
}.

Definition set_refreshToken (v : Value) (u : t) : t :=
  mk (_id u) (username u) (email u) (fullName u) (avatar u) (coverImage u)
     (password u) v.

Definition set_password (h : string) (u : t) : t :=
  mk (_id u) (username u) (email u) (fullName u) (avatar u) (coverImage u)
     h (refreshToken u).
End UserDoc.

Inductive Json : Type :=
| JNull
| JString (s : string)
| JNumber (n : nat)
| JObject (fields : list (string * Json)).

(** [obj[key]] on a JSON object: the first binding of the key. *)
Fixpoint field (key : string) (fields : list (string * Json)) : option Json :=
  match fields with
  | [] => None
  | (k, v) :: rest => if String.eqb k key then Some v else field key rest
  end.

(** [j[key]] on a JSON value. *)
Definition get (key : string) (j : Json) : option Json :=
  match j with
  | JObject fields => field key fields
  | _ => None
  end.

Definition has_key (key : string) (j : Json) : bool :=
  match get key j with Some _ => true | None => false end.

Module Body.
(** [req.body], with the keys the lifecycle handlers read. *)
Record t : Type := mk {
  username : Value;
  email : Value;
  fullName : Value;
  password : Value;
  refreshToken : Value;
  oldPassword : Value;
  newPassword : Value
}.
Definition empty : t :=
  mk VUndefined VUndefined VUndefined VUndefined VUndefined VUndefined VUndefined.
End Body.

Module Files.
Record file : Type := mk_file { path : string }.
(** [req.files] as filled by the upload middleware: each key is absent or
    holds an array of files. *)
Record t : Type := mk {
  avatar : option (list file);
  coverImage : option (list file)
}.
End Files.

Module Req.
Record t : Type := mk {
  body : Body.t;
  cookies_refreshToken : Value;   (* req.cookies.refreshToken *)
  files : option Files.t;          (* req.files, absent when nothing was parsed *)
  user : option nat                (* req.user._id, set by the auth middleware *)
}.
End Req.

Record ApiResponse : Type := mkApiResponse {
  statusCode : nat;
  data : Json;
  message : string
}.

Record Response : Type := mkResponse {
  status : nat;                         (* res.status(n) *)
  cookie : list (string * string);      (* res.cookie(name, value, options) *)
  clearCookie : list string;            (* res.clearCookie(name, options) *)
  json : ApiResponse                    (* res.json(body) *)
}.

(** ** Collaborators that are not part of the controller *)

Inductive JwtResult : Type :=
| JwtOk (_id : nat)                 (* the decoded payload's [_id] *)
| JwtError (name message : string).

(** The password hashing and the token methods of the user model, the JWT
    library and the media host are parameters of the development. *)
Record Env : Type := mkEnv {
  (* bcrypt.hash in the model's pre-save hook *)
  hashPassword : string -> string;
  (* user.isPasswordCorrect(plaintext), against the stored hash *)
  isPasswordCorrect : Value -> string -> bool;
  (* user.generateAccessToken() and user.generateRefreshToken(), at a clock reading *)
  generateAccessToken : UserDoc.t -> nat -> string;
  generateRefreshToken : UserDoc.t -> nat -> string;
  (* process.env.REFRESH_TOKEN_SECRET *)
  REFRESH_TOKEN_SECRET : string;
  (* the signature check and payload of a token under a secret *)
  jwt_decode : string -> string -> JwtResult;
  (* whether a token's lifetime is over at a clock reading *)
  jwt_expired : string -> nat -> bool;
  (* uploadOnCloudinary(localPath): the uploaded asset's url, or null *)
  uploadOnCloudinary : Value -> option string
}.

(** [jwt.verify(token, secret)] at a clock reading: the token's signature
    and payload do not depend on the clock, its expiry does. *)
Definition jwt_verify (env : Env) (token secret : string) (now : nat) : JwtResult :=
  match jwt_decode env token secret with
  | JwtOk id =>
      if jwt_expired env token now
      then JwtError "TokenExpiredError" "jwt expired"
      else JwtOk id
  | JwtError name msg => JwtError name msg
  end.

(** ** The handler monad: the user collection as state, exceptions as outcome *)

Definition Collection : Type := list UserDoc.t.

Definition M (A : Type) : Type := Collection -> Outcome A * Collection.

Definition ret {A} (a : A) : M A := fun db => (Return a, db).

Definition throw {A} (e : Exn) : M A := fun db => (Throw e, db).

Definition bind {A B} (m : M A) (k : A -> M B) : M B :=
  fun db =>
    match m db with
    | (Return a, db') => k a db'
    | (Throw e, db') => (Throw e, db')
    end.

(** [try { m } catch (error) { h error }]. *)
Definition try_catch {A} (m : M A) (h : Exn -> M A) : M A :=
  fun db =>
    match m db with
    | (Return a, db') => (Return a, db')
    | (Throw e, db') => h e db'
    end.

Declare Scope handler_scope.
Delimit Scope handler_scope with handler.
Notation "x <- m ;; k" := (bind m (fun x => k))
  (at level 61, m at next level, right associativity) : handler_scope.
Notation "m ;;; k" := (bind m (fun _ => k))
  (at level 61, right associativity) : handler_scope.
Open Scope handler_scope.

(** ** The user model's operations on the collection *)

Module User.

Definition findById (id : nat) : M (option UserDoc.t) :=
  fun db => (Return (find (fun u => UserDoc._id u =? id) db), db).

(** One branch [{ key: v }] of a filter: a document's text field matches a
    string only; [undefined] and [null] match no document, every document
    holding a string there. *)
Definition matches (stored : string) (v : Value) : bool :=
  match v with
  | VString s => String.eqb stored s
  | _ => false
  end.

(** Modelled from the spec: the schema of the user model is not part of the
    sources.  The data model makes [username] case-normalized to lower case:
    the model casts the username of a filter as it casts the username of a
    document, so a filter's username is compared in lower case. *)
Definition normalise (v : Value) : Value :=
  match v with
  | VString s => VString (toLowerCase s)
  | _ => v
  end.

(** The filter [{ $or: [{ username }, { email }] }]. *)
Definition names (username email : Value) (u : UserDoc.t) : bool :=
  matches (UserDoc.username u) (normalise username) || matches (UserDoc.email u) email.

(** [User.findOne({ $or: [{ username }, { email }] })]: the first document
    of the collection that the filter matches. *)
Definition findOne (username email : Value) : M (option UserDoc.t) :=
  fun db => (Return (find (names username email) db), db).

(** The update of the first document with the given [_id]. *)
Fixpoint updateById (id : nat) (f : UserDoc.t -> UserDoc.t) (db : Collection)
  : Collection :=
  match db with
  | [] => []
  | u :: rest =>
      if UserDoc._id u =? id then f u :: rest else u :: updateById id f rest
  end.

(** [user.save({ validateBeforeSave: false })] after an assignment to one
    path of [user]: the path is written to the stored document. *)
Definition save (user : UserDoc.t) (assign : UserDoc.t -> UserDoc.t) : M unit :=
  fun db =>
    match find (fun u => UserDoc._id u =? UserDoc._id user) db with
    | Some _ => (Return tt, updateById (UserDoc._id user) assign db)
    | None => (Throw (LibError "DocumentNotFoundError" "No document found"), db)
    end.

(** [User.findByIdAndUpdate(id, { $unset: { refreshToken: 1 } }, { new: true })]:
    the field is removed from the document, which is returned as updated. *)
Definition findByIdAndUpdate_unset_refreshToken (id : nat) : M (option UserDoc.t) :=
  fun db =>
    let db' := updateById id (UserDoc.set_refreshToken VUndefined) db in
    (Return (find (fun u => UserDoc._id u =? id) db'), db').

(** A key no document of the collection has. *)
Definition fresh_id (db : Collection) : nat :=
  S (fold_right Nat.max 0 (map UserDoc._id db)).

(** Modelled from the spec: the schema of the user model is not part of the
    sources.  The data model makes identity fields all present, [username]
    and [email] unique keys and the stored password a hash: a document
    with a missing text field or a taken key is refused by the store, and
    the password is hashed on the way in.  The new document has no
    [refreshToken] field. *)
Definition create (env : Env) (username : string) (fullName email password : Value)
           (avatar coverImage : string) : M UserDoc.t :=
  fun db =>
    match fullName, email, password with
    | VString fn, VString em, VString pw =>
        if existsb (fun u => String.eqb (UserDoc.username u) username
                             || String.eqb (UserDoc.email u) em) db
        then (Throw (LibError "MongoServerError" "E11000 duplicate key error"), db)
        else
          let u := UserDoc.mk (fresh_id db) username em fn avatar coverImage
                              (hashPassword env pw) VUndefined in
          (Return u, db ++ [u])
    | _, _, _ =>
        (Throw (LibError "ValidationError" "User validation failed"), db)
    end.

(** The plain object of a document, as serialised into a response. *)
Definition toObject (u : UserDoc.t) : list (string * Json) :=
  [ ("_id", JNumber (UserDoc._id u));
    ("username", JString (UserDoc.username u));
    ("email", JString (UserDoc.email u));
    ("fullName", JString (UserDoc.fullName u));
    ("avatar", JString (UserDoc.avatar u));
    ("coverImage", JString (UserDoc.coverImage u));
    ("password", JString (UserDoc.password u)) ]
  ++ match UserDoc.refreshToken u with
     | VUndefined => []
     | VNull => [("refreshToken", JNull)]
     | VString s => [("refreshToken", JString s)]
     end.

(** [.select("-a -b ...")]: the document without the excluded paths. *)
Definition select (excluded : list string) (u : UserDoc.t) : Json :=
  JObject (filter (fun kv => negb (existsb (String.eqb (fst kv)) excluded))
                  (toObject u)).

End User.

(** ** The controller *)

Section Controller.

Variable env : Env.

Record TokenPair : Type := mkTokenPair {
  accessToken : string;
  refreshToken : string
}.

Definition generateAccessAndRefreshToken (userId : nat) (now : nat) : M TokenPair :=
  try_catch
    (found <- User.findById userId ;;
     match found with
     | None =>
         throw (TypeError "Cannot read properties of null (reading 'generateAccessToken')")
     | Some user =>
         let accessToken := generateAccessToken env user now in
         let refreshToken := generateRefreshToken env user now in
         User.save user (UserDoc.set_refreshToken (VString refreshToken)) ;;;
         ret (mkTokenPair accessToken refreshToken)
     end)
    (fun _ =>
       throw (ApiError 500
                "Something went wrong while generating refresh and access token")).

(** [field?.trim() === ""]. *)
Definition blank (v : Value) : bool :=
  match v with
  | VString s => String.eqb (trim s) ""
  | _ => false
  end.

(** [req.files?.avatar[0].path]. *)
Definition avatarLocalPath (req : Req.t) : M Value :=
  match Req.files req with
  | None => ret VUndefined
  | Some files =>
      match Files.avatar files with
      | None => throw (TypeError "Cannot read properties of undefined (reading '0')")
      | Some [] => throw (TypeError "Cannot read properties of undefined (reading 'path')")
      | Some (f :: _) => ret (VString (Files.path f))
      end
  end.

(** The cover image's path, when [req.files.coverImage] is a non-empty array. *)
Definition coverImageLocalPath (req : Req.t) : Value :=
  match Req.files req with
  | Some files =>
      match Files.coverImage files with
      | Some (f :: _) => VString (Files.path f)
      | _ => VUndefined
      end
  | None => VUndefined
  end.

(** [username.toLowerCase()]. *)
Definition toLowerCase_of (v : Value) : M string :=
  match v with
  | VString s => ret (toLowerCase s)
  | VNull => throw (TypeError "Cannot read properties of null (reading 'toLowerCase')")
  | VUndefined =>
      throw (TypeError "Cannot read properties of undefined (reading 'toLowerCase')")
  end.

Definition registerUser (req : Req.t) : M Response :=
  let username := Body.username (Req.body req) in
  let email := Body.email (Req.body req) in
  let fullName := Body.fullName (Req.body req) in
  let password := Body.password (Req.body req) in
  if existsb blank [fullName; email; username; password]
  then throw (ApiError 400 "All field are required!")
  else
    existedUser <- User.findOne username email ;;
    match existedUser with
    | Some _ => throw (ApiError 409 "User with email or username already exsits")
    | None =>
        avatarPath <- avatarLocalPath req ;;
        let coverPath := coverImageLocalPath req in
        if negb (truthy avatarPath)
        then throw (ApiError 400 "Please provide a profile image")
        else
          let avatar := uploadOnCloudinary env avatarPath in
          let coverImage := uploadOnCloudinary env coverPath in
          match avatar with
          | None => throw (ApiError 400 "Avatar file is required")
          | Some avatarUrl =>
              lowered <- toLowerCase_of username ;;
              user <- User.create env lowered fullName email password avatarUrl
                        (match coverImage with Some url => url | None => "" end) ;;
              createdUser <- User.findById (UserDoc._id user) ;;
              match createdUser with
              | None =>
                  throw (ApiError 500 "Something went wrong while registring the user!")
              | Some created =>
                  ret (mkResponse 201 [] []
                         (mkApiResponse 201
                            (User.select ["password"; "refreshToken"] created)
                            "User registered successfully"))
              end
          end
    end.

Definition loginUser (req : Req.t) (now : nat) : M Response :=
  let username := Body.username (Req.body req) in
  let email := Body.email (Req.body req) in
  let password := Body.password (Req.body req) in
  if negb (truthy (Js.or username email))
  then throw (ApiError 400 "Username or Email field is required")
  else
    found <- User.findOne username email ;;
    match found with
    | None => throw (ApiError 404 "User does not Exist")
    | Some user =>
        if negb (isPasswordCorrect env password (UserDoc.password user))
        then throw (ApiError 401 "Incorrect Password")
        else
          tokens <- generateAccessAndRefreshToken (UserDoc._id user) now ;;
          loggedInUser <- User.findById (UserDoc._id user) ;;
          ret (mkResponse 200
                 [("accessToken", accessToken tokens);
                  ("refreshToken", refreshToken tokens)]
                 []
                 (mkApiResponse 200
                    (JObject
                       [("user",
                         match loggedInUser with
                         | Some u =>
                             User.select ["password"; "refreshToken";
                                          "videoUpload"; "watchHistory"] u
                         | None => JNull
                         end);
                        ("accessToken", JString (accessToken tokens));
                        ("refreshToken", JString (refreshToken tokens))])
                    "User logged In Successfully"))
    end.

Definition logoutUser (req : Req.t) : M Response :=
  match Req.user req with
  | None => throw (TypeError "Cannot read properties of undefined (reading '_id')")
  | Some id =>
      User.findByIdAndUpdate_unset_refreshToken id ;;;
      ret (mkResponse 200 [] ["accessToken"; "refreshToken"]
             (mkApiResponse 200 (JObject []) "User logout successfully"))
  end.

(** [error.message || "Invalid refresh token"]. *)
Definition message_or_default (e : Exn) : string :=
  if String.eqb (exn_message e) "" then "Invalid refresh token" else exn_message e.

Definition refreshAccessToken (req : Req.t) (now : nat) : M Response :=
  try_catch
    (let incoming :=
       Js.or (Req.cookies_refreshToken req) (Body.refreshToken (Req.body req)) in
     if negb (truthy incoming)
     then throw (ApiError 401 "Unauthorized access")
     else
       match incoming with
       | VString incomingRefreshToken =>
           match jwt_verify env incomingRefreshToken (REFRESH_TOKEN_SECRET env) now with
           | JwtError name msg => throw (LibError name msg)
           | JwtOk id =>
               found <- User.findById id ;;
               match found with
               | None => throw (ApiError 401 "Invalid refresh token")
               | Some user =>
                   if negb (strict_eq incoming (UserDoc.refreshToken user))
                   then throw (ApiError 401 "Refresh token expired")
                   else
                     (* the assignment to [user.refreshToken] that follows the
                        call is to the local object and is never saved *)
                     tokens <- generateAccessAndRefreshToken (UserDoc._id user) now ;;
                     ret (mkResponse 200
                            [("accessToken", accessToken tokens);
                             ("refreshToken", refreshToken tokens)]
                            []
                            (mkApiResponse 201
                               (JObject
                                  [("accessToken", JString (accessToken tokens));
                                   ("refreshToken", JString (refreshToken tokens))])
                               "New access token created"))
               end
           end
       | _ =>
           (* not reached: a truthy value is a string *)
           throw (ApiError 401 "Unauthorized access")
       end)
    (fun error => throw (ApiError 401 (message_or_default error))).

(** [user.password = newPassword] followed by [user.save()].  Modelled from
    the spec: the model's pre-save hook is not part of the sources; a changed
    password is stored as its hash, and a value that is no string cannot be
    hashed. *)
Definition save_password (user : UserDoc.t) (newPassword : Value) : M unit :=
  match newPassword with
  | VString pw => User.save user (UserDoc.set_password (hashPassword env pw))
  | _ => throw (LibError "Error" "data and salt arguments required")
  end.

Definition updatePassword (req : Req.t) : M Response :=
  let username := Body.username (Req.body req) in
  let email := Body.email (Req.body req) in
  let oldPassword := Body.oldPassword (Req.body req) in
  let newPassword := Body.newPassword (Req.body req) in
  byId <- match Req.user req with
          | Some id => User.findById id
          | None => ret None
          end ;;
  found <- match byId with
           | Some u => ret (Some u)
           | None => User.findOne username email
           end ;;
  match found with
  | None =>
      throw (TypeError "Cannot read properties of null (reading 'isPasswordCorrect')")
  | Some user =>
      if negb (isPasswordCorrect env oldPassword (UserDoc.password user))
      then throw (ApiError 400 "Invalid old password")
      else
        if isPasswordCorrect env newPassword (UserDoc.password user)
        then throw (ApiError 406 "Your new password cannot same as old one")
        else
          save_password user newPassword ;;;
          ret (mkResponse 200 [] []
                 (mkApiResponse 200
                    (JObject
                       [("newPassword",
                         match newPassword with
                         | VString pw => JString pw
                         | _ => JNull
                         end)])
                    "Password changed successfully"))
  end.

End Controller.

(** ** Sequences of requests *)

Inductive Event : Type :=
| Register (req : Req.t)
| Login (req : Req.t) (now : nat)
| Logout (req : Req.t)
| Refresh (req : Req.t) (now : nat)
| ChangePassword (req : Req.t).

Definition handle (env : Env) (ev : Event) : M Response :=
  match ev with
  | Register req => registerUser env req
  | Login req now => loginUser env req now
  | Logout req => logoutUser req
  | Refresh req now => refreshAccessToken env req now
  | ChangePassword req => updatePassword env req
  end.

(** The collection after a sequence of requests, served one after the other. *)
Fixpoint run (env : Env) (evs : list Event) (db : Collection) : Collection :=
  match evs with
  | [] => db
  | ev :: rest => run env rest (snd (handle env ev db))
  end.

(** The clock readings at which the requests of a sequence can mint tokens. *)
Fixpoint clocks (evs : list Event) : list nat :=
  match evs with
  | [] => []
  | Login _ now :: rest => now :: clocks rest
  | Refresh _ now :: rest => now :: clocks rest
  | _ :: rest => clocks rest
  end.

(** The refresh token a Refresh request presents:
    [req.cookies.refreshToken || req.body.refreshToken]. *)
Definition presented (req : Req.t) : Value :=
  Js.or (Req.cookies_refreshToken req) (Body.refreshToken (Req.body req)).

(** The [refreshToken] field of the document with the given [_id]. *)
Definition stored (id : nat) (db : Collection) : option Value :=
  option_map UserDoc.refreshToken (find (fun u => UserDoc._id u =? id) db).

(** A Register request that carries no avatar file: nothing was parsed into
    [req.files], or its [avatar] key is absent or an empty array. *)
Definition no_avatar_file (req : Req.t) : bool :=
  match Req.files req with
  | None => true
  | Some files =>
      match Files.avatar files with
      | None | Some [] => true
      | Some (_ :: _) => false
      end
  end.

(** The four text fields of a Register request, in the order the handler
    checks them. *)
Definition register_fields (req : Req.t) : list Value :=
  [Body.fullName (Req.body req); Body.email (Req.body req);
   Body.username (Req.body req); Body.password (Req.body req)].

(** Two documents that differ in their password hash at most. *)
Definition same_but_password (u v : UserDoc.t) : Prop :=
  UserDoc._id v = UserDoc._id u /\
  UserDoc.username v = UserDoc.username u /\
  UserDoc.email v = UserDoc.email u /\
  UserDoc.fullName v = UserDoc.fullName u /\
  UserDoc.avatar v = UserDoc.avatar u /\
  UserDoc.coverImage v = UserDoc.coverImage u /\
  UserDoc.refreshToken v = UserDoc.refreshToken u.



(** ** A concrete environment, for running the handlers *)

Module Demo.

Fixpoint unary (n : nat) : string :=
  match n with
  | 0 => EmptyString
  | S k => String "1" (unary k)
  end.

Fixpoint ones (s : string) : nat * string :=
  match s with
  | String "1" r => let (n, rest) := ones r in (S n, rest)
  | _ => (0, s)
  end.

(** A token is a tag, the subject and the issue time: ["r11.111"] is the
    refresh token of identity 2 issued at clock reading 3. *)
Definition token (tag : string) (id now : nat) : string :=
  (tag ++ unary id ++ "." ++ unary now)%string.

Definition parse (tok : string) : option (nat * nat) :=
  match tok with
  | String "r" r =>
      let (id, rest) := ones r in
      match rest with
      | String "." r2 =>
          let (iat, rest2) := ones r2 in
          match rest2 with
          | EmptyString => Some (id, iat)
          | _ => None
          end
      | _ => None
      end
  | _ => None
  end.

Definition env : Env := {|
  hashPassword := fun pw => ("h:" ++ pw)%string;
  isPasswordCorrect := fun v h =>
    match v with
    | VString pw => String.eqb ("h:" ++ pw)%string h
    | _ => false
    end;
  generateAccessToken := fun u now => token "a" (UserDoc._id u) now;
  generateRefreshToken := fun u now => token "r" (UserDoc._id u) now;
  REFRESH_TOKEN_SECRET := "refresh-secret";
  jwt_decode := fun tok secret =>
    if String.eqb secret "refresh-secret"
    then match parse tok with
         | Some (id, _) => JwtOk id
         | None => JwtError "JsonWebTokenError" "jwt malformed"
         end
    else JwtError "JsonWebTokenError" "invalid signature";
  jwt_expired := fun tok now =>
    match parse tok with
    | Some (_, iat) => iat + 10 <=? now
    | None => false
    end;
  uploadOnCloudinary := fun p =>
    match p with
    | VString local => Some ("https://media.example/" ++ local)%string
    | _ => None
    end
|}.

Definition alice : UserDoc.t :=
  UserDoc.mk 1 "alice" "a@x.com" "Alice A" "https://media.example/a.png" ""
             "h:p1" (VString "r1.111").

Definition db : Collection := [alice].

Definition files : Files.t :=
  Files.mk (Some [Files.mk_file "tmp/b.png"]) None.

Definition request (b : Body.t) : Req.t := Req.mk b VUndefined None None.

Definition register_body (username email fullName password : Value) : Body.t :=
  Body.mk username email fullName password VUndefined VUndefined VUndefined.

Definition refresh_request (tok : Value) : Req.t :=
  Req.mk Body.empty tok None None.

Definition register_request (username : Value) (files : option Files.t) : Req.t :=
  Req.mk (register_body username (VString "b@x.com") (VString "Bob B") (VString "p2"))
         VUndefined files None.

(** The registration of alice, with password p1 and an avatar file. *)
Definition register_alice : Req.t :=
  Req.mk (register_body (VString "alice") (VString "a@x.com") (VString "Alice A")
                        (VString "p1"))
         VUndefined (Some files) None.

Definition login_request : Req.t :=
  request (Body.mk (VString "alice") VUndefined VUndefined (VString "p1")
                   VUndefined VUndefined VUndefined).

Definition logout_request : Req.t := Req.mk Body.empty VUndefined None (Some 1).

Definition change_password_request : Req.t :=
  Req.mk (Body.mk VUndefined VUndefined VUndefined VUndefined VUndefined
                  (VString "p1") (VString "p3"))
         VUndefined None (Some 1).

(** Requests served later on: a login at clock reading 6, a password
    change, an exchange of the token of that login at reading 7. *)
Definition later : list Event :=
  [Login login_request 6; ChangePassword change_password_request;
   Refresh (refresh_request (VString "r1.111111")) 7].

End Demo.

(** ** What the lifecycle keeps of a record, and white space *)

(** Two documents with the same identity fields: they differ in their
    password hash and their refresh token at most. *)
Definition same_identity (u v : UserDoc.t) : Prop :=
  UserDoc._id v = UserDoc._id u /\
  UserDoc.username v = UserDoc.username u /\
  UserDoc.email v = UserDoc.email u /\
  UserDoc.fullName v = UserDoc.fullName u /\
  UserDoc.avatar v = UserDoc.avatar u /\
  UserDoc.coverImage v = UserDoc.coverImage u.

(** A string of white space only. *)
Fixpoint all_whitespace (s : string) : bool :=
  match s with
  | EmptyString => true
  | String c r => is_whitespace c && all_whitespace r
  end.

(** A string of ASCII characters only.  On such strings [trim] and
    [toLowerCase] are the methods of JavaScript strings, which beyond ASCII
    also strip the white space of Unicode and lower its cased letters. *)
Fixpoint ascii_only (s : string) : bool :=
  match s with
  | EmptyString => true
  | String c r => (nat_of_ascii c <? 128) && ascii_only r
  end.

(** A field that is missing, null or an ASCII string. *)
Definition ascii_value (v : Value) : bool :=
  match v with
  | VString s => ascii_only s
  | _ => true
  end.

(** A document whose username is in lower case. *)
Definition lowercase_username (u : UserDoc.t) : Prop :=
  toLowerCase (UserDoc.username u) = UserDoc.username u.

(** ** The channel profile *)

Module Subscription.
(** A document of the subscriptions collection, with the two fields the
    profile's pipeline joins on. *)
Record t : Type := mk {
  subscriber : nat;
  channel : nat
}.
End Subscription.

Module Channel.
(** The document that the [$project] stage of the profile's pipeline lets
    through; [_id] is kept by default. *)
Record t : Type := mk {
  _id : nat;
  fullName : string;
  username : string;
  subscribersCount : nat;
  channelsSubscribedToCount : nat;
  isSubscribed : bool;
  avatar : string;
  coverImage : string;
  email : string
}.
End Channel.

(** [$lookup] from subscriptions with [foreignField: "channel"]. *)
Definition subscribers (id : nat) (subs : list Subscription.t) : list Subscription.t :=
  filter (fun s => Subscription.channel s =? id) subs.

(** [$lookup] from subscriptions with [foreignField: "subscriber"]. *)
Definition subscribedTo (id : nat) (subs : list Subscription.t) : list Subscription.t :=
  filter (fun s => Subscription.subscriber s =? id) subs.

(** [{ $in: [req.user?._id, "$subscribers.subscriber"] }]: without a caller
    the first operand is no identifier and is in no list of identifiers. *)
Definition viewer_in (viewer : option nat) (l : list Subscription.t) : bool :=
  match viewer with
  | Some me => existsb (fun s => Subscription.subscriber s =? me) l
  | None => false
  end.

(** The [$lookup], [$addFields] and [$project] stages on one user. *)
Definition channel_of (viewer : option nat) (subs : list Subscription.t)
           (u : UserDoc.t) : Channel.t :=
  Channel.mk (UserDoc._id u) (UserDoc.fullName u) (UserDoc.username u)
             (length (subscribers (UserDoc._id u) subs))
             (length (subscribedTo (UserDoc._id u) subs))
             (viewer_in viewer (subscribers (UserDoc._id u) subs))
             (UserDoc.avatar u) (UserDoc.coverImage u) (UserDoc.email u).

(** [User.aggregate([...])]: the [$match] stage on the username, then the
    other stages on every user it lets through. *)
Definition aggregate_channel (username : string) (viewer : option nat)
           (users : Collection) (subs : list Subscription.t) : list Channel.t :=
  map (channel_of viewer subs)
      (filter (fun u => String.eqb (UserDoc.username u) username) users).

(** The handler of a channel's profile, on [req.params.username] and
    [req.user?._id]; it reads the two collections and writes nothing.
    [Return c] stands for the 200 response whose data is [c]. *)
Definition getUserChannelProfile (username : Value) (viewer : option nat)
           (users : Collection) (subs : list Subscription.t) : Outcome Channel.t :=
  match username with
  | VString s =>
      if String.eqb (trim s) ""
      then Throw (ApiError 400 "Username is missing")
      else
        match aggregate_channel (toLowerCase s) viewer users subs with
        | [] => Throw (ApiError 404 "Channel does not existed")
        | c :: _ => Return c
        end
  | _ => Throw (ApiError 400 "Username is missing")
  end.

(** ** The account details *)

Module AccountReq.
(** [req.user] as the handler reads it. *)
Record caller : Type := mk_caller {
  _id : nat;
  username : string
}.
(** The request of an account update: the three keys of [req.body] and
    [req.user]. *)
Record t : Type := mk {
  newFullName : Value;
  newEmail : Value;
  newUserName : Value;
  user : option caller
}.
End AccountReq.

(** The [$set] document of the account update. *)
Record SetDoc : Type := mkSetDoc {
  set_fullName : Value;
  set_email : Value;
  set_username : Value
}.

(** [User.findByIdAndUpdate(id, { $set: ... }, { new: true })]: what the
    store writes for a value that is no string is the store's matter, so the
    operation is a parameter; it gives the updated document, or null, and the
    collection after the update. *)
Definition StoreUpdate : Type :=
  nat -> SetDoc -> Collection -> option UserDoc.t * Collection.

Definition updateAccountDetails (findByIdAndUpdate_set : StoreUpdate)
           (req : AccountReq.t) : M Response :=
  let newFullName := AccountReq.newFullName req in
  let newEmail := AccountReq.newEmail req in
  let newUserName := AccountReq.newUserName req in
  if negb (truthy (Js.or (Js.or newFullName newEmail) newUserName))
  then throw (ApiError 400 "All fields are required")
  else
    match AccountReq.user req with
    | None => throw (TypeError "Cannot read properties of undefined (reading 'username')")
    | Some me =>
        if strict_eq newUserName (VString (AccountReq.username me))
        then throw (ApiError 406 "Your old username cannot same as new one")
        else
          existedUserName <-
            (fun db => (Return (find (fun u => User.matches (UserDoc.username u) newUserName) db),
                        db)) ;;
          match existedUserName with
          | Some _ =>
              throw (ApiError 406
                       "Already username is acquired, try with different username")
          | None =>
              fun db =>
                (* [newUserName || existedUserName], the latter being null here *)
                let update := mkSetDoc newFullName newEmail (Js.or newUserName VNull) in
                let (user, db') := findByIdAndUpdate_set (AccountReq._id me) update db in
                (Return (mkResponse 200 [] []
                           (mkApiResponse 200
                              match user with
                              | Some u => User.select ["password"] u
                              | None => JNull
                              end
                              "User/Accounts details updated successfully")),
                 db')
          end
    end.

(** A store that writes the strings of a [$set] document and leaves a path
    alone when its value is no string. *)
Definition set_strings (update : SetDoc) (u : UserDoc.t) : UserDoc.t :=
  let pick (v : Value) (old : string) :=
    match v with VString s => s | _ => old end in
  UserDoc.mk (UserDoc._id u)
             (pick (set_username update) (UserDoc.username u))
             (pick (set_email update) (UserDoc.email u))
             (pick (set_fullName update) (UserDoc.fullName u))
             (UserDoc.avatar u) (UserDoc.coverImage u)
             (UserDoc.password u) (UserDoc.refreshToken u).

Definition update_strings : StoreUpdate :=
  fun id update db =>
    let db' := User.updateById id (set_strings update) db in
    (find (fun u => UserDoc._id u =? id) db', db').

(** ** The avatar *)

Module AvatarReq.
(** [req.user] as the avatar handler reads it. *)
Record caller : Type := mk_caller {
  _id : nat;
  avatar : string
}.
(** The request of an avatar update: [req.file] of the upload middleware
    and [req.user]. *)
Record t : Type := mk {
  file : option Files.file;
  user : option caller
}.
End AvatarReq.

(** The two helpers of the media host that are not part of the controller:
    [publicId(url)], and the [result] field of what
    [removingCloudinaryFile(publicId)] answers. *)
Record Media : Type := mkMedia {
  publicId : string -> string;
  removingCloudinaryFile : string -> Value
}.

Definition set_avatar (url : string) (u : UserDoc.t) : UserDoc.t :=
  UserDoc.mk (UserDoc._id u) (UserDoc.username u) (UserDoc.email u) (UserDoc.fullName u)
             url (UserDoc.coverImage u) (UserDoc.password u) (UserDoc.refreshToken u).

Definition updateUserAvatar (env : Env) (media : Media) (req : AvatarReq.t) : M Response :=
  match AvatarReq.user req with
  | None => throw (TypeError "Cannot read properties of undefined (reading 'avatar')")
  | Some me =>
      let oldAvatar := AvatarReq.avatar me in
      match AvatarReq.file req with
      | None => throw (TypeError "Cannot read properties of undefined (reading 'path')")
      | Some f =>
          let avatarPath := VString (Files.path f) in
          if negb (truthy avatarPath)
          then throw (ApiError 400 "Avatar file is missing")
          else
            match uploadOnCloudinary env avatarPath with
            | None => throw (ApiError 400 "Failed to upload avatar")
            | Some url =>
                let publicIdFromUrl := publicId media oldAvatar in
                if negb (strict_eq (removingCloudinaryFile media publicIdFromUrl)
                                   (VString "ok"))
                then throw (ApiError 400 "Failed to delete old cloundinary file")
                else
                  fun db =>
                    let db' := User.updateById (AvatarReq._id me) (set_avatar url) db in
                    (Return (mkResponse 200 [] []
                               (mkApiResponse 200
                                  (JObject
                                     [("user",
                                       match find (fun u => UserDoc._id u =? AvatarReq._id me)
                                                  db' with
                                       | Some u => User.select ["password"] u
                                       | None => JNull
                                       end)])
                                  "Avatar updated successfully")),
                     db')
            end
      end
  end.

(** ** More concrete inputs *)

Module Cases.

Definition bob : UserDoc.t :=
  UserDoc.mk 2 "bob" "b@x.com" "Bob B" "https://media.example/b.png" ""
             "h:p2" VUndefined.

Definition users : Collection := [Demo.alice; bob].

(** Bob follows alice; a third identity follows both. *)
Definition subs : list Subscription.t :=
  [Subscription.mk 2 1; Subscription.mk 3 1; Subscription.mk 3 2].

Definition login (username email password : Value) : Req.t :=
  Demo.request (Body.mk username email VUndefined password
                        VUndefined VUndefined VUndefined).

Definition change_password (user : option nat) (username : Value)
           (oldPassword newPassword : Value) : Req.t :=
  Req.mk (Body.mk username VUndefined VUndefined VUndefined VUndefined
                  oldPassword newPassword)
         VUndefined None user.

Definition rename (fullName email username : Value) : AccountReq.t :=
  AccountReq.mk fullName email username (Some (AccountReq.mk_caller 1 "alice")).

(** A media host that removes every file but the ones named "gone". *)
Definition media : Media :=
  mkMedia (fun url => url)
          (fun id => if String.eqb id "gone" then VString "not found" else VString "ok").

Definition new_avatar (old : string) : AvatarReq.t :=
  AvatarReq.mk (Some (Files.mk_file "tmp/new.png")) (Some (AvatarReq.mk_caller 1 old)).

End Cases.

(** * Properties *)

(** ** Tactics and basic facts about the monad and the collection *)

Ltac unfold_m :=
  unfold bind, ret, throw, try_catch, User.findById, User.findOne, User.save,
    User.findByIdAndUpdate_unset_refreshToken in *.

(** Case analysis on the tests and matches that the equations on runs of
    handlers hang on, until every run is a pair of an outcome and a
    collection. *)
Ltac split_run :=
  match goal with
  | H : (_, _) = (_, _) |- _ => inversion H; subst; clear H
  | H : ?lhs = (_, _) |- _ =>
      match lhs with
      | context [if ?b then _ else _] => destruct b eqn:?
      | context [match ?x with _ => _ end] => destruct x eqn:?
      end; simpl in H; try discriminate H
  end.

Lemma field_filter_excluded (excluded : list string) (key : string)
      (fields : list (string * Json)) :
  In key excluded ->
  field key (filter (fun kv => negb (existsb (String.eqb (fst kv)) excluded)) fields)
  = None.
Proof.
  intros Hin. induction fields as [|[k v] rest IH]; simpl; [reflexivity|].
  destruct (existsb (String.eqb k) excluded) eqn:Hex; simpl; [exact IH|].
  destruct (String.eqb k key) eqn:Hk; [|exact IH].
  apply String.eqb_eq in Hk. subst k.
  assert (existsb (String.eqb key) excluded = true) as Habs.
  { apply existsb_exists. exists key. split; [exact Hin|apply String.eqb_refl]. }
  congruence.
Qed.

Lemma select_excludes (excluded : list string) (key : string) (u : UserDoc.t) :
  In key excluded -> has_key key (User.select excluded u) = false.
Proof.
  intros Hin. unfold has_key, get, User.select.
  now rewrite field_filter_excluded.
Qed.

Lemma find_some_in {A} (p : A -> bool) (l : list A) (x : A) :
  find p l = Some x -> In x l.
Proof. intros H. now apply find_some in H. Qed.

(** ** The definitions at work *)

Example trim_both_ends : trim "  a b  " = "a b".
Proof. reflexivity. Qed.

Example trim_of_white_space : trim "   " = "" /\ blank (VString "   ") = true.
Proof. split; reflexivity. Qed.

Example toLowerCase_mixed : toLowerCase "Alice_01" = "alice_01".
Proof. reflexivity. Qed.

(** The scenario of the specification: alice registers, logs in at clock
    reading 1, exchanges the token of the login at reading 2 for another
    one, and is refused at reading 3 with the token of the login. *)
Example lifecycle_scenario :
  let db1 := snd (registerUser Demo.env Demo.register_alice []) in
  let db2 := snd (loginUser Demo.env Demo.login_request 1 db1) in
  let db3 := snd (refreshAccessToken Demo.env (Demo.refresh_request (VString "r1.1")) 2 db2) in
  stored 1 db1 = Some VUndefined /\
  stored 1 db2 = Some (VString "r1.1") /\
  stored 1 db3 = Some (VString "r1.11") /\
  fst (refreshAccessToken Demo.env (Demo.refresh_request (VString "r1.1")) 3 db3)
  = Throw (ApiError 401 "Refresh token expired").
Proof. repeat split; reflexivity. Qed.

(** ** Register *)

(** What a successful registration has done and returns. *)
Lemma registerUser_success (env : Env) (req : Req.t) (db db1 : Collection) (r : Response) :
  registerUser env req db = (Return r, db1) ->
  exists user created,
    db1 = db ++ [user] /\
    UserDoc.refreshToken user = VUndefined /\
    find (fun u => UserDoc._id u =? UserDoc._id user) db1 = Some created /\
    r = mkResponse 201 [] []
          (mkApiResponse 201 (User.select ["password"; "refreshToken"] created)
                         "User registered successfully").
Proof.
  unfold registerUser, avatarLocalPath, toLowerCase_of, User.create. unfold_m.
  intros H. repeat split_run.
  all: do 2 eexists; split; [reflexivity|split; [reflexivity|]].
  all: split; [eassumption|reflexivity].
Qed.

(** C3: whenever Register succeeds, the identity object in the response is
    a document of the collection without its [password] and without its
    [refreshToken] field. *)
Theorem register_returns_sanitized_identity
        (env : Env) (req : Req.t) (db db1 : Collection) (r : Response) :
  registerUser env req db = (Return r, db1) ->
  exists created,
    In created db1 /\
    data (json r) = User.select ["password"; "refreshToken"] created /\
    has_key "password" (data (json r)) = false /\
    has_key "refreshToken" (data (json r)) = false.
Proof.
  intros H. apply registerUser_success in H.
  destruct H as (user & created & _ & _ & Hfind & ->).
  exists created. cbn [json data]. repeat split.
  - eapply find_some_in; eassumption.
  - apply select_excludes. simpl; auto.
  - apply select_excludes. simpl; auto.
Qed.

(** ** Updates of one document *)

Lemma find_updateById (id id' : nat) (f : UserDoc.t -> UserDoc.t) (db : Collection) :
  (forall u, UserDoc._id (f u) = UserDoc._id u) ->
  find (fun u => UserDoc._id u =? id') (User.updateById id f db)
  = if id =? id'
    then option_map f (find (fun u => UserDoc._id u =? id') db)
    else find (fun u => UserDoc._id u =? id') db.
Proof.
  intros Hid. induction db as [|u rest IH]; simpl.
  - now destruct (id =? id').
  - destruct (UserDoc._id u =? id) eqn:Hu; simpl.
    + rewrite Hid. destruct (id =? id') eqn:Hii.
      * apply Nat.eqb_eq in Hu, Hii. subst.
        now rewrite Nat.eqb_refl.
      * apply Nat.eqb_eq in Hu. subst. now rewrite Hii.
    + destruct (UserDoc._id u =? id') eqn:Hu'.
      * destruct (id =? id') eqn:Hii; [|reflexivity].
        apply Nat.eqb_eq in Hu', Hii. subst. now rewrite Nat.eqb_refl in Hu.
      * exact IH.
Qed.

Lemma updateById_Forall2 (R : UserDoc.t -> UserDoc.t -> Prop) (id : nat)
      (f : UserDoc.t -> UserDoc.t) (db : Collection) :
  (forall u, R u u) -> (forall u, R u (f u)) ->
  Forall2 R db (User.updateById id f db).
Proof.
  intros Hrefl Hf. induction db as [|u rest IH]; simpl; [constructor|].
  destruct (UserDoc._id u =? id).
  - constructor; [apply Hf|]. clear IH. induction rest; constructor; auto.
  - constructor; auto.
Qed.

Lemma stored_updateById (id id' : nat) (f : UserDoc.t -> UserDoc.t) (db : Collection) :
  (forall u, UserDoc._id (f u) = UserDoc._id u) ->
  (forall u, UserDoc.refreshToken (f u) = UserDoc.refreshToken u) ->
  stored id' (User.updateById id f db) = stored id' db.
Proof.
  intros Hid Htok. unfold stored. rewrite find_updateById by exact Hid.
  destruct (id =? id'); [|reflexivity].
  destruct (find _ db); simpl; [now rewrite Htok|reflexivity].
Qed.

(** ** ChangePassword *)

(** What a successful password change has done and returns. *)
Lemma updatePassword_success (env : Env) (req : Req.t) (db db1 : Collection) (r : Response) :
  updatePassword env req db = (Return r, db1) ->
  exists user pw,
    In user db /\
    Body.newPassword (Req.body req) = VString pw /\
    isPasswordCorrect env (Body.oldPassword (Req.body req)) (UserDoc.password user) = true /\
    isPasswordCorrect env (VString pw) (UserDoc.password user) = false /\
    db1 = User.updateById (UserDoc._id user)
            (UserDoc.set_password (hashPassword env pw)) db /\
    r = mkResponse 200 [] []
          (mkApiResponse 200 (JObject [("newPassword", JString pw)])
                         "Password changed successfully").
Proof.
  unfold updatePassword, save_password. unfold_m.
  intros H. repeat split_run.
  all: match goal with
       | Hf : find _ _ = Some ?u |- _ =>
           exists u; eexists; split; [eapply find_some_in; exact Hf|]
       end.
  all: repeat split; try reflexivity; try assumption.
  all: try (apply negb_false_iff; assumption).
Qed.

(** C8: a successful ChangePassword replaces the password hash of one
    document by the hash of the new password and changes nothing else: every
    document keeps its other fields, its stored refresh token among them. *)
Theorem change_password_touches_the_hash_only
        (env : Env) (req : Req.t) (db db1 : Collection) (r : Response) :
  updatePassword env req db = (Return r, db1) ->
  exists user pw,
    In user db /\
    Body.newPassword (Req.body req) = VString pw /\
    db1 = User.updateById (UserDoc._id user)
            (UserDoc.set_password (hashPassword env pw)) db /\
    Forall2 (fun u v => v = u \/ v = UserDoc.set_password (hashPassword env pw) u)
            db db1 /\
    Forall2 same_but_password db db1 /\
    (forall id, stored id db1 = stored id db).
Proof.
  intros H. apply updatePassword_success in H.
  destruct H as (user & pw & Hin & Hnew & _ & _ & -> & _).
  exists user, pw. repeat split; try assumption.
  - apply updateById_Forall2; auto.
  - apply updateById_Forall2; intros u; unfold same_but_password;
      destruct u; simpl; repeat split; reflexivity.
  - intros id. apply stored_updateById; intros u; destruct u; reflexivity.
Qed.

(** ** Minting a token pair *)

Lemma find_id_eq (id : nat) (db : Collection) (u : UserDoc.t) :
  find (fun u => UserDoc._id u =? id) db = Some u -> UserDoc._id u = id.
Proof.
  intros H. apply find_some in H. destruct H as [_ H]. now apply Nat.eqb_eq in H.
Qed.

Lemma generateAccessAndRefreshToken_success
      (env : Env) (id now : nat) (db db1 : Collection) (t : TokenPair) :
  generateAccessAndRefreshToken env id now db = (Return t, db1) ->
  exists user,
    find (fun u => UserDoc._id u =? id) db = Some user /\
    t = mkTokenPair (generateAccessToken env user now) (generateRefreshToken env user now) /\
    db1 = User.updateById id
            (UserDoc.set_refreshToken (VString (generateRefreshToken env user now))) db.
Proof.
  unfold generateAccessAndRefreshToken. unfold_m.
  intros H. repeat split_run.
  match goal with
  | Hf : find _ db = Some ?u |- exists user, Some ?u = _ /\ _ =>
      exists u; rewrite (find_id_eq _ _ _ Hf)
  end.
  repeat split; reflexivity.
Qed.

Lemma generateAccessAndRefreshToken_failure
      (env : Env) (id now : nat) (db db1 : Collection) (e : Exn) :
  generateAccessAndRefreshToken env id now db = (Throw e, db1) ->
  e = ApiError 500 "Something went wrong while generating refresh and access token"
  /\ db1 = db.
Proof.
  unfold generateAccessAndRefreshToken. unfold_m.
  intros H. repeat split_run. all: split; reflexivity.
Qed.

(** The pair is minted for every identity of the collection. *)
Lemma generateAccessAndRefreshToken_total
      (env : Env) (id now : nat) (db : Collection) (user : UserDoc.t) :
  find (fun u => UserDoc._id u =? id) db = Some user ->
  generateAccessAndRefreshToken env id now db
  = (Return (mkTokenPair (generateAccessToken env user now)
                         (generateRefreshToken env user now)),
     User.updateById id
       (UserDoc.set_refreshToken (VString (generateRefreshToken env user now))) db).
Proof.
  intros Hf. unfold generateAccessAndRefreshToken. unfold_m.
  rewrite Hf. rewrite (find_id_eq _ _ _ Hf). rewrite Hf. reflexivity.
Qed.

(** ** Login *)

(** What a successful login has done and returns. *)
Lemma loginUser_success (env : Env) (req : Req.t) (now : nat) (db db1 : Collection)
      (r : Response) :
  loginUser env req now db = (Return r, db1) ->
  exists user owner,
    find (User.names (Body.username (Req.body req)) (Body.email (Req.body req))) db
    = Some user /\
    find (fun u => UserDoc._id u =? UserDoc._id user) db = Some owner /\
    db1 = User.updateById (UserDoc._id user)
            (UserDoc.set_refreshToken (VString (generateRefreshToken env owner now))) db /\
    r = mkResponse 200
          [("accessToken", generateAccessToken env owner now);
           ("refreshToken", generateRefreshToken env owner now)]
          []
          (mkApiResponse 200
             (JObject
                [("user",
                  match find (fun u => UserDoc._id u =? UserDoc._id user) db1 with
                  | Some u =>
                      User.select ["password"; "refreshToken";
                                   "videoUpload"; "watchHistory"] u
                  | None => JNull
                  end);
                 ("accessToken", JString (generateAccessToken env owner now));
                 ("refreshToken", JString (generateRefreshToken env owner now))])
             "User logged In Successfully").
Proof.
  unfold loginUser. unfold_m.
  intros H. repeat split_run.
  all: match goal with
       | Hg : generateAccessAndRefreshToken _ _ _ _ = (Return _, _) |- _ =>
           apply generateAccessAndRefreshToken_success in Hg;
           destruct Hg as (owner & Hfind & -> & ->)
       end.
  do 2 eexists. split; [reflexivity|]. split; [exact Hfind|].
  split; reflexivity.
Qed.

(** ** Logout *)

Lemma logoutUser_run (req : Req.t) (db : Collection) (id : nat) :
  Req.user req = Some id ->
  logoutUser req db
  = (Return (mkResponse 200 [] ["accessToken"; "refreshToken"]
               (mkApiResponse 200 (JObject []) "User logout successfully")),
     User.updateById id (UserDoc.set_refreshToken VUndefined) db).
Proof.
  intros Hu. unfold logoutUser. rewrite Hu. reflexivity.
Qed.

Lemma logoutUser_success (req : Req.t) (db db1 : Collection) (r : Response) :
  logoutUser req db = (Return r, db1) ->
  exists id,
    Req.user req = Some id /\
    db1 = User.updateById id (UserDoc.set_refreshToken VUndefined) db /\
    r = mkResponse 200 [] ["accessToken"; "refreshToken"]
          (mkApiResponse 200 (JObject []) "User logout successfully").
Proof.
  unfold logoutUser. unfold_m. intros H. repeat split_run.
  eexists. repeat split; reflexivity.
Qed.

(** ** Refresh *)

Lemma jwt_verify_decode (env : Env) (tok secret : string) (now id : nat) :
  jwt_verify env tok secret now = JwtOk id -> jwt_decode env tok secret = JwtOk id.
Proof.
  unfold jwt_verify. destruct (jwt_decode env tok secret); [|discriminate].
  destruct (jwt_expired env tok now); [discriminate|auto].
Qed.

(** What a successful exchange has checked, has done and returns. *)
Lemma refreshAccessToken_success (env : Env) (req : Req.t) (now : nat)
      (db db1 : Collection) (r : Response) :
  refreshAccessToken env req now db = (Return r, db1) ->
  exists T user,
    presented req = VString T /\
    jwt_verify env T (REFRESH_TOKEN_SECRET env) now = JwtOk (UserDoc._id user) /\
    find (fun u => UserDoc._id u =? UserDoc._id user) db = Some user /\
    UserDoc.refreshToken user = VString T /\
    db1 = User.updateById (UserDoc._id user)
            (UserDoc.set_refreshToken (VString (generateRefreshToken env user now))) db /\
    r = mkResponse 200
          [("accessToken", generateAccessToken env user now);
           ("refreshToken", generateRefreshToken env user now)]
          []
          (mkApiResponse 201
             (JObject
                [("accessToken", JString (generateAccessToken env user now));
                 ("refreshToken", JString (generateRefreshToken env user now))])
             "New access token created").
Proof.
  unfold refreshAccessToken. fold (presented req). unfold_m.
  intros H. repeat split_run.
  match goal with
  | Hg : generateAccessAndRefreshToken _ _ _ _ = (Return _, _) |- _ =>
      apply generateAccessAndRefreshToken_success in Hg;
      destruct Hg as (owner & Hfind & -> & ->)
  end.
  match goal with
  | Hf : find _ db = Some ?u, Hv : jwt_verify _ ?tok _ _ = JwtOk ?id |- _ =>
      pose proof (find_id_eq _ _ _ Hf) as Hid; subst id;
      assert (owner = u) by congruence; subst owner;
      exists tok, u
  end.
  repeat split; try assumption; try reflexivity.
  match goal with
  | Hs : negb _ = false |- UserDoc.refreshToken ?u = _ =>
      apply negb_false_iff in Hs;
      destruct (UserDoc.refreshToken u); try discriminate Hs;
      apply String.eqb_eq in Hs; now subst
  end.
Qed.

(** Every failure of Refresh surfaces as an [ApiError] of status 401 that
    carries the message of the error caught, and leaves the collection as
    it was. *)
Lemma refreshAccessToken_failure (env : Env) (req : Req.t) (now : nat)
      (db db1 : Collection) (e : Exn) :
  refreshAccessToken env req now db = (Throw e, db1) ->
  (exists m, e = ApiError 401 m) /\ db1 = db.
Proof.
  unfold refreshAccessToken. unfold_m.
  intros H. repeat split_run.
  all: try match goal with
       | Hg : generateAccessAndRefreshToken _ _ _ _ = (Throw _, _) |- _ =>
           apply generateAccessAndRefreshToken_failure in Hg; destruct Hg as [-> ->]
       end.
  all: split; [eexists; reflexivity|reflexivity].
Qed.

(** A token that the record it names does not hold is refused. *)
Lemma refreshAccessToken_rejects (env : Env) (req : Req.t) (now : nat)
      (db : Collection) (T : string) :
  presented req = VString T ->
  (forall id, jwt_decode env T (REFRESH_TOKEN_SECRET env) = JwtOk id ->
              stored id db <> Some (VString T)) ->
  exists m, refreshAccessToken env req now db = (Throw (ApiError 401 m), db).
Proof.
  intros Hp Hfresh.
  destruct (refreshAccessToken env req now db) as [[r|e] db1] eqn:Hrun.
  - exfalso. apply refreshAccessToken_success in Hrun.
    destruct Hrun as (T' & user & Hp' & Hv & Hf & Htok & _).
    rewrite Hp in Hp'. injection Hp' as <-.
    apply jwt_verify_decode in Hv.
    apply (Hfresh _ Hv). unfold stored. rewrite Hf. simpl. now rewrite Htok.
  - apply refreshAccessToken_failure in Hrun. destruct Hrun as [[m ->] ->].
    now exists m.
Qed.

(** ** Passwords in response bodies *)




(** C2: a Login that gives a username or an email naming a record, with
    the password of that record, mints a refresh token for the record, writes
    that very token into the [refreshToken] field of the record, changing
    nothing else, and answers 200 with the same token in the body and in the
    cookie. *)
Theorem login_returns_the_stored_refresh_token
        (env : Env) (req : Req.t) (now : nat) (db : Collection) (user : UserDoc.t) :
  truthy (Js.or (Body.username (Req.body req)) (Body.email (Req.body req))) = true ->
  find (User.names (Body.username (Req.body req)) (Body.email (Req.body req))) db
  = Some user ->
  isPasswordCorrect env (Body.password (Req.body req)) (UserDoc.password user) = true ->
  exists r owner,
    find (fun u => UserDoc._id u =? UserDoc._id user) db = Some owner /\
    loginUser env req now db
    = (Return r,
       User.updateById (UserDoc._id user)
         (UserDoc.set_refreshToken (VString (generateRefreshToken env owner now))) db) /\
    status r = 200 /\
    get "refreshToken" (data (json r)) = Some (JString (generateRefreshToken env owner now)) /\
    In ("refreshToken", generateRefreshToken env owner now) (cookie r) /\
    stored (UserDoc._id user)
           (User.updateById (UserDoc._id user)
              (UserDoc.set_refreshToken (VString (generateRefreshToken env owner now))) db)
    = Some (VString (generateRefreshToken env owner now)).
Proof.
  intros Hgiven Hfound Hpw.
  assert (exists owner, find (fun u => UserDoc._id u =? UserDoc._id user) db = Some owner)
    as [owner Howner].
  { destruct (find (fun u => UserDoc._id u =? UserDoc._id user) db) eqn:Hf; [eauto|].
    apply find_some_in in Hfound.
    apply (find_none _ _ Hf) in Hfound. now rewrite Nat.eqb_refl in Hfound. }
  unfold loginUser. rewrite Hgiven. unfold_m. cbn [negb]. cbv beta.
  rewrite Hfound, Hpw. cbn [negb].
  rewrite (generateAccessAndRefreshToken_total _ _ _ _ _ Howner).
  eexists. exists owner. split; [exact Howner|]. split; [reflexivity|]. cbn.
  split; [reflexivity|]. split; [reflexivity|]. split; [auto|].
  unfold stored. rewrite find_updateById by (intros u; destruct u; reflexivity).
  rewrite Nat.eqb_refl, Howner. reflexivity.
Qed.

(** ** Failing requests and the stored refresh token along a sequence *)

Lemma find_app_one {A} (p : A -> bool) (l : list A) (x : A) :
  find p (l ++ [x]) = match find p l with
                      | Some y => Some y
                      | None => if p x then Some x else None
                      end.
Proof.
  induction l as [|a l IH]; simpl; [reflexivity|].
  destruct (p a); [reflexivity|exact IH].
Qed.

(** A request that fails leaves the collection as it was. *)
Lemma handle_failure (env : Env) (ev : Event) (db db1 : Collection) (e : Exn) :
  handle env ev db = (Throw e, db1) -> db1 = db.
Proof.
  destruct ev as [req|req now|req|req now|req]; simpl; intros H.
  - revert H. unfold registerUser, avatarLocalPath, toLowerCase_of, User.create. unfold_m.
    intros H. repeat split_run; try reflexivity.
    (* the document just created is found again *)
    all: exfalso;
      match goal with
      | Hf : find ?p (?l ++ [?u]) = None |- _ =>
          rewrite find_app_one in Hf; destruct (find p l); [discriminate Hf|];
          cbn beta in Hf; rewrite Nat.eqb_refl in Hf; discriminate Hf
      end.
  - revert H. unfold loginUser. unfold_m. intros H. repeat split_run; try reflexivity.
    all: match goal with
         | Hg : generateAccessAndRefreshToken _ _ _ _ = (Throw _, _) |- _ =>
             apply generateAccessAndRefreshToken_failure in Hg; now destruct Hg
         end.
  - revert H. unfold logoutUser. unfold_m. intros H. repeat split_run; reflexivity.
  - now apply refreshAccessToken_failure in H.
  - revert H. unfold updatePassword, save_password. unfold_m.
    intros H. repeat split_run; reflexivity.
Qed.

Lemma stored_set_refreshToken (id id' : nat) (v : Value) (db : Collection) :
  stored id' (User.updateById id (UserDoc.set_refreshToken v) db)
  = if id =? id'
    then option_map (fun _ => v) (find (fun u => UserDoc._id u =? id') db)
    else stored id' db.
Proof.
  unfold stored. rewrite find_updateById by (intros u; destruct u; reflexivity).
  destruct (id =? id'); [|reflexivity].
  now destruct (find _ db).
Qed.

(** One request leaves the refresh token of a record as it was, removes it,
    or replaces it by a token minted for that record at the request's clock
    reading. *)
Lemma stored_after_handle (env : Env) (ev : Event) (db : Collection) (id : nat) :
  let db1 := snd (handle env ev db) in
  stored id db1 = stored id db \/
  stored id db1 = Some VUndefined \/
  exists u now,
    UserDoc._id u = id /\ In now (clocks [ev]) /\
    stored id db1 = Some (VString (generateRefreshToken env u now)).
Proof.
  cbv zeta. destruct (handle env ev db) as [[r|e] db1] eqn:Hrun; cbn [snd].
  2: { apply handle_failure in Hrun. subst. now left. }
  destruct ev as [req|req now|req|req now|req]; simpl in Hrun.
  - apply registerUser_success in Hrun.
    destruct Hrun as (user & _ & -> & Htok & _).
    unfold stored. rewrite find_app_one.
    destruct (find _ db); [now left|].
    destruct (UserDoc._id user =? id); [|now left].
    right; left. simpl. now rewrite Htok.
  - apply loginUser_success in Hrun.
    destruct Hrun as (user & owner & _ & Hown & -> & _).
    rewrite stored_set_refreshToken.
    destruct (UserDoc._id user =? id) eqn:Hid; [|now left].
    apply Nat.eqb_eq in Hid. subst id. rewrite Hown.
    right; right. exists owner, now. repeat split.
    + now apply find_id_eq in Hown.
    + simpl; auto.
  - apply logoutUser_success in Hrun. destruct Hrun as (id0 & _ & -> & _).
    rewrite stored_set_refreshToken.
    destruct (id0 =? id); [|now left].
    unfold stored. destruct (find _ db); simpl; [right; now left|now left].
  - apply refreshAccessToken_success in Hrun.
    destruct Hrun as (T & user & _ & _ & Hf & _ & -> & _).
    rewrite stored_set_refreshToken.
    destruct (UserDoc._id user =? id) eqn:Hid; [|now left].
    apply Nat.eqb_eq in Hid. subst id. rewrite Hf.
    right; right. exists user, now. repeat split. simpl; auto.
  - apply updatePassword_success in Hrun.
    destruct Hrun as (user & pw & _ & _ & _ & _ & -> & _).
    left. apply stored_updateById; intros u; destruct u; reflexivity.
Qed.

(** A token that a record does not hold, and that is not minted for it
    again, is not held by it after any sequence of requests. *)
Lemma stored_after_run (env : Env) (evs : list Event) (id : nat) (T : string) :
  (forall u now, UserDoc._id u = id -> In now (clocks evs) ->
                 generateRefreshToken env u now <> T) ->
  forall db, stored id db <> Some (VString T) ->
             stored id (run env evs db) <> Some (VString T).
Proof.
  induction evs as [|ev rest IH]; intros Hfresh db Hdb; simpl; [exact Hdb|].
  assert (forall now, In now (clocks [ev]) -> In now (clocks (ev :: rest))) as Hsub.
  { intros now. destruct ev; simpl; tauto. }
  assert (forall now, In now (clocks rest) -> In now (clocks (ev :: rest))) as Hsub'.
  { intros now. destruct ev; simpl; tauto. }
  apply IH.
  - intros u now Hid Hin. apply Hfresh; auto.
  - destruct (stored_after_handle env ev db id) as [H|[H|(u & now & Hid & Hin & H)]];
      rewrite H.
    + exact Hdb.
    + discriminate.
    + intros Heq. injection Heq as Heq. apply (Hfresh u now); auto.
Qed.

(** When is a token not minted again?  For an issuer whose tokens for one
    identity differ from one clock reading to another, as soon as the clock
    has moved on from the reading the token was minted at. *)
Section TimestampedIssuer.

Variable env : Env.
Variable id : nat.

Hypothesis mint_injective :
  forall u u' t t',
    UserDoc._id u = id -> UserDoc._id u' = id ->
    generateRefreshToken env u t = generateRefreshToken env u' t' -> t = t'.

Lemma fresh_once_the_clock_moved_on (u0 : UserDoc.t) (t0 : nat) (times : list nat) :
  UserDoc._id u0 = id ->
  ~ In t0 times ->
  forall u t, UserDoc._id u = id -> In t times ->
              generateRefreshToken env u t <> generateRefreshToken env u0 t0.
Proof.
  intros Hid0 Hnot u t Hid Hin Heq.
  apply Hnot. now rewrite <- (mint_injective u u0 t t0 Hid Hid0 Heq).
Qed.

End TimestampedIssuer.

(** ** Rotation and logout *)

(** C1, as amended: when a Refresh presenting a token succeeds, it answers with a newly
    minted refresh token and stores that token on the record; the token
    presented, provided the tokens minted for the identity at the exchange
    and after it are other strings, is then refused with status 401 by every
    later Refresh, whatever requests are served in between. *)
Theorem refresh_token_is_redeemed_once
        (env : Env) (req : Req.t) (now : nat) (db db1 : Collection) (r : Response)
        (T : string) (id : nat) (evs : list Event) (req' : Req.t) (now' : nat) :
  presented req = VString T ->
  jwt_decode env T (REFRESH_TOKEN_SECRET env) = JwtOk id ->
  refreshAccessToken env req now db = (Return r, db1) ->
  (forall u t, UserDoc._id u = id -> In t (now :: clocks evs) ->
               generateRefreshToken env u t <> T) ->
  presented req' = VString T ->
  (exists T', get "refreshToken" (data (json r)) = Some (JString T') /\
              T' <> T /\
              stored id db1 = Some (VString T')) /\
  exists m, refreshAccessToken env req' now' (run env evs db1)
            = (Throw (ApiError 401 m), run env evs db1).
Proof.
  intros Hp Hdec Hrun Hfresh Hp'.
  apply refreshAccessToken_success in Hrun.
  destruct Hrun as (T0 & user & Hp0 & Hv & Hf & Htok & -> & ->).
  rewrite Hp in Hp0. injection Hp0 as <-.
  apply jwt_verify_decode in Hv. rewrite Hdec in Hv. injection Hv as ->.
  assert (generateRefreshToken env user now <> T) as Hnew.
  { apply Hfresh; [reflexivity|simpl; auto]. }
  assert (stored (UserDoc._id user)
            (User.updateById (UserDoc._id user)
               (UserDoc.set_refreshToken (VString (generateRefreshToken env user now))) db)
          = Some (VString (generateRefreshToken env user now))) as Hst.
  { rewrite stored_set_refreshToken, Nat.eqb_refl, Hf. reflexivity. }
  split.
  - exists (generateRefreshToken env user now). repeat split; assumption.
  - apply refreshAccessToken_rejects with (T := T); [exact Hp'|].
    intros id' Hdec'. rewrite Hdec in Hdec'. injection Hdec' as <-.
    apply stored_after_run.
    + intros u t Hid Hin. apply Hfresh; [exact Hid|simpl; auto].
    + rewrite Hst. intros Heq. injection Heq as Heq. contradiction.
Qed.

(** C4: Logout of an authenticated identity succeeds and removes the
    [refreshToken] field from its record (the field is absent, not null);
    the token the record held before is then refused with status 401 by
    every later Refresh, whatever requests are served in between, provided
    no token minted for the identity in between is that same string. *)
Theorem logout_removes_the_refresh_token
        (env : Env) (req : Req.t) (db : Collection) (id : nat) (user : UserDoc.t)
        (T : string) (evs : list Event) (req' : Req.t) (now' : nat) :
  Req.user req = Some id ->
  find (fun u => UserDoc._id u =? id) db = Some user ->
  UserDoc.refreshToken user = VString T ->
  (forall id', jwt_decode env T (REFRESH_TOKEN_SECRET env) = JwtOk id' -> id' = id) ->
  (forall u t, UserDoc._id u = id -> In t (clocks evs) ->
               generateRefreshToken env u t <> T) ->
  presented req' = VString T ->
  exists r db1,
    logoutUser req db = (Return r, db1) /\
    status r = 200 /\
    (exists user',
        find (fun u => UserDoc._id u =? id) db1 = Some user' /\
        UserDoc.refreshToken user' = VUndefined /\
        get "refreshToken" (JObject (User.toObject user')) = None) /\
    exists m, refreshAccessToken env req' now' (run env evs db1)
              = (Throw (ApiError 401 m), run env evs db1).
Proof.
  intros Hu Hf Htok Hsubj Hfresh Hp'.
  do 2 eexists. split; [apply logoutUser_run; exact Hu|].
  split; [reflexivity|]. split.
  - exists (UserDoc.set_refreshToken VUndefined user).
    rewrite find_updateById by (intros u; destruct u; reflexivity).
    rewrite Nat.eqb_refl, Hf. repeat split.
  - apply refreshAccessToken_rejects with (T := T); [exact Hp'|].
    intros id' Hdec. apply Hsubj in Hdec. subst id'.
    apply stored_after_run; [exact Hfresh|].
    rewrite stored_set_refreshToken, Nat.eqb_refl, Hf. discriminate.
Qed.

(** ** Validation, conflicts and the avatar of Register *)

(** A text field that is empty after trimming is refused with status 400. *)
Lemma registerUser_blank_field (env : Env) (req : Req.t) (db : Collection) :
  existsb blank (register_fields req) = true ->
  registerUser env req db = (Throw (ApiError 400 "All field are required!"), db).
Proof.
  intros H. unfold registerUser. unfold register_fields in H. now rewrite H.
Qed.

(** A text field that is missing is not counted as blank. *)
Lemma blank_missing : blank VUndefined = false /\ blank VNull = false.
Proof. split; reflexivity. Qed.

(** A request whose username or email, as the request spells them, is that
    of a record is refused with status 409. *)
Lemma registerUser_conflict (env : Env) (req : Req.t) (db : Collection) (u : UserDoc.t) :
  existsb blank (register_fields req) = false ->
  find (User.names (Body.username (Req.body req)) (Body.email (Req.body req))) db = Some u ->
  registerUser env req db
  = (Throw (ApiError 409 "User with email or username already exsits"), db).
Proof.
  intros Hv Hf. unfold registerUser. unfold register_fields in Hv. rewrite Hv.
  unfold_m. now rewrite Hf.
Qed.

(** C5, at a request without a username whose other fields, avatar and
    upload are in order: the validation lets it through, and the handler
    ends in a TypeError at [username.toLowerCase()], not in the 400 error. *)
Theorem register_missing_username_escapes_validation :
  Body.username (Req.body (Demo.register_request VUndefined (Some Demo.files))) = VUndefined /\
  existsb blank (register_fields (Demo.register_request VUndefined (Some Demo.files))) = false /\
  registerUser Demo.env (Demo.register_request VUndefined (Some Demo.files)) Demo.db
  = (Throw (TypeError "Cannot read properties of undefined (reading 'toLowerCase')"),
     Demo.db).
Proof. repeat split; reflexivity. Qed.

(** C6: a Register request that passes the validation and whose username,
    an ASCII string in whatever letter case it is typed, is the lower-case
    username of a record, or whose email is the email of a record, fails
    with the 409 error and creates no record. *)
Theorem register_duplicate_is_a_conflict
        (env : Env) (req : Req.t) (db : Collection) (u : UserDoc.t) :
  existsb blank (register_fields req) = false ->
  In u db ->
  (exists name, Body.username (Req.body req) = VString name /\
                ascii_only name = true /\
                UserDoc.username u = toLowerCase name) \/
  (exists em, Body.email (Req.body req) = VString em /\ UserDoc.email u = em) ->
  registerUser env req db
  = (Throw (ApiError 409 "User with email or username already exsits"), db).
Proof.
  intros Hv Hin Hdup.
  destruct (find (User.names (Body.username (Req.body req)) (Body.email (Req.body req))) db)
    as [v|] eqn:Hf.
  - now apply registerUser_conflict with (u := v).
  - exfalso. apply (find_none _ _ Hf) in Hin. unfold User.names in Hin.
    apply orb_false_iff in Hin. destruct Hin as [Hname Hmail].
    destruct Hdup as [(name & Hn & _ & Hu)|(em & He & Hu)].
    + rewrite Hn, Hu in Hname. cbn in Hname. now rewrite String.eqb_refl in Hname.
    + rewrite He, Hu in Hmail. cbn in Hmail. now rewrite String.eqb_refl in Hmail.
Qed.

(** C9, as amended: a Register request without an avatar file that passes
    the validation and the duplicate check ends in a TypeError at
    [req.files?.avatar[0].path] when [req.files] is present, and in the 400
    error "Please provide a profile image" when [req.files] itself is absent;
    no record is created either way. *)
Theorem register_without_avatar_file
        (env : Env) (req : Req.t) (db : Collection) :
  no_avatar_file req = true ->
  existsb blank (register_fields req) = false ->
  find (User.names (Body.username (Req.body req)) (Body.email (Req.body req))) db = None ->
  match Req.files req with
  | Some _ => exists m, registerUser env req db = (Throw (TypeError m), db)
  | None =>
      registerUser env req db
      = (Throw (ApiError 400 "Please provide a profile image"), db)
  end.
Proof.
  intros Hno Hv Hf. unfold registerUser. unfold register_fields in Hv. rewrite Hv.
  unfold_m. rewrite Hf.
  unfold no_avatar_file in Hno. unfold avatarLocalPath.
  destruct (Req.files req) as [files|]; [|reflexivity].
  destruct (Files.avatar files) as [[|f l]|]; try discriminate Hno.
  all: eexists; reflexivity.
Qed.

(** C9 fails as stated: a request without [req.files] reaches the check for
    the avatar and is answered with the 400 error, not with a TypeError. *)
Lemma register_without_files_reaches_the_avatar_check :
  no_avatar_file (Demo.register_request (VString "bob") None) = true /\
  registerUser Demo.env (Demo.register_request (VString "bob") None) Demo.db
  = (Throw (ApiError 400 "Please provide a profile image"), Demo.db).
Proof. split; reflexivity. Qed.

(** ** The failures of Refresh *)

(** C7, as amended: every failure of Refresh surfaces as an error of
    status 401 and leaves the collection unchanged; the message of that
    error is the one of the check that failed. *)
Theorem refresh_failures_are_401_with_the_message_of_the_check
        (env : Env) (req : Req.t) (now : nat) (db db1 : Collection) (e : Exn) :
  refreshAccessToken env req now db = (Throw e, db1) ->
  db1 = db /\
  exists m,
    e = ApiError 401 m /\
    if truthy (presented req)
    then match presented req with
         | VString T =>
             match jwt_verify env T (REFRESH_TOKEN_SECRET env) now with
             | JwtError name msg => m = message_or_default (LibError name msg)
             | JwtOk id =>
                 match find (fun u => UserDoc._id u =? id) db with
                 | None => m = "Invalid refresh token"
                 | Some user =>
                     m = "Refresh token expired" /\
                     UserDoc.refreshToken user <> VString T
                 end
             end
         | _ => False
         end
    else m = "Unauthorized access".
Proof.
  intros H. pose proof (refreshAccessToken_failure _ _ _ _ _ _ H) as [_ ->].
  split; [reflexivity|].
  revert H. unfold refreshAccessToken. fold (presented req). unfold_m.
  intros H. repeat split_run.
  all: try match goal with
       | Hb : negb (truthy ?v) = _ |- context [truthy ?v] =>
           apply (f_equal negb) in Hb; rewrite negb_involutive in Hb;
           rewrite Hb; cbn [negb]
       end.
  all: try match goal with
       | Hg : generateAccessAndRefreshToken _ ?i _ ?d = (Throw _, _),
         Hf : find _ ?d = Some ?u |- _ =>
           exfalso; pose proof (find_id_eq _ _ _ Hf) as Hid;
           rewrite <- Hid in Hf;
           rewrite (generateAccessAndRefreshToken_total _ _ _ _ _ Hf) in Hg;
           discriminate Hg
       end.
  all: eexists; split; [reflexivity|]; try reflexivity.
  all: try (exfalso; match goal with Hb : truthy _ = _ |- _ => discriminate Hb end).
  split; [reflexivity|].
  intros Heq.
  match goal with
  | Hs : negb _ = true |- _ =>
      rewrite Heq in Hs; rewrite String.eqb_refl in Hs; discriminate Hs
  end.
Qed.

(** C7 fails as stated: two failures of Refresh, a request without a token
    and a request with a superseded token, surface as different errors, so
    the caller is told which check failed. *)
Lemma refresh_failures_are_told_apart :
  refreshAccessToken Demo.env (Demo.refresh_request VUndefined) 5 Demo.db
  = (Throw (ApiError 401 "Unauthorized access"), Demo.db) /\
  refreshAccessToken Demo.env (Demo.refresh_request (VString "r1.1")) 5 Demo.db
  = (Throw (ApiError 401 "Refresh token expired"), Demo.db) /\
  ApiError 401 "Unauthorized access" <> ApiError 401 "Refresh token expired".
Proof. repeat split; try reflexivity. discriminate. Qed.

(** ** The theorems at work on the concrete environment *)

(** The tokens of the concrete issuer for identity 1 at the listed clock
    readings, checked by computation. *)
Lemma demo_fresh (times : list nat) (T : string) :
  forallb (fun t => negb (String.eqb (Demo.token "r" 1 t) T)) times = true ->
  forall u t, UserDoc._id u = 1 -> In t times ->
              generateRefreshToken Demo.env u t <> T.
Proof.
  intros Hall u t Hid Hin. rewrite forallb_forall in Hall.
  specialize (Hall t Hin). apply negb_true_iff in Hall.
  apply String.eqb_neq in Hall. cbn [generateRefreshToken Demo.env].
  now rewrite Hid.
Defined.

(** Registering bob next to alice. *)
Lemma register_returns_sanitized_identity_witness :
  exists r db1,
    registerUser Demo.env (Demo.register_request (VString "bob") (Some Demo.files)) Demo.db
    = (Return r, db1) /\
    exists created,
      In created db1 /\
      data (json r) = User.select ["password"; "refreshToken"] created /\
      has_key "password" (data (json r)) = false /\
      has_key "refreshToken" (data (json r)) = false.
Proof.
  do 2 eexists. split; [cbv; reflexivity|].
  apply (register_returns_sanitized_identity Demo.env
           (Demo.register_request (VString "bob") (Some Demo.files)) Demo.db).
  reflexivity.
Defined.

(** Alice logs in at clock reading 7. *)
Lemma login_returns_the_stored_refresh_token_witness :
  exists r owner,
    find (fun u => UserDoc._id u =? 1) Demo.db = Some owner /\
    loginUser Demo.env Demo.login_request 7 Demo.db
    = (Return r,
       User.updateById 1
         (UserDoc.set_refreshToken (VString (generateRefreshToken Demo.env owner 7)))
         Demo.db) /\
    status r = 200 /\
    get "refreshToken" (data (json r))
    = Some (JString (generateRefreshToken Demo.env owner 7)) /\
    In ("refreshToken", generateRefreshToken Demo.env owner 7) (cookie r) /\
    stored 1
           (User.updateById 1
              (UserDoc.set_refreshToken (VString (generateRefreshToken Demo.env owner 7)))
              Demo.db)
    = Some (VString (generateRefreshToken Demo.env owner 7)).
Proof.
  apply (login_returns_the_stored_refresh_token
           Demo.env Demo.login_request 7 Demo.db Demo.alice); reflexivity.
Defined.

(** Alice changes her password from p1 to p3. *)
Lemma change_password_touches_the_hash_only_witness :
  exists r db1,
    updatePassword Demo.env Demo.change_password_request Demo.db = (Return r, db1) /\
    exists user pw,
      In user Demo.db /\
      Body.newPassword (Req.body Demo.change_password_request) = VString pw /\
      db1 = User.updateById (UserDoc._id user)
              (UserDoc.set_password (hashPassword Demo.env pw)) Demo.db /\
      Forall2 (fun u v => v = u \/ v = UserDoc.set_password (hashPassword Demo.env pw) u)
              Demo.db db1 /\
      Forall2 same_but_password Demo.db db1 /\
      (forall id, stored id db1 = stored id Demo.db).
Proof.
  do 2 eexists. split; [cbv; reflexivity|].
  eapply (change_password_touches_the_hash_only
            Demo.env Demo.change_password_request Demo.db).
  cbv; reflexivity.
Defined.


(** Alice exchanges her token at clock reading 5; it is refused at reading
    8, after a login, a password change and another exchange. *)
Lemma refresh_token_is_redeemed_once_witness :
  exists r db1,
    refreshAccessToken Demo.env (Demo.refresh_request (VString "r1.111")) 5 Demo.db
    = (Return r, db1) /\
    (exists T', get "refreshToken" (data (json r)) = Some (JString T') /\
                T' <> "r1.111" /\
                stored 1 db1 = Some (VString T')) /\
    exists m,
      refreshAccessToken Demo.env (Demo.refresh_request (VString "r1.111")) 8
                         (run Demo.env Demo.later db1)
      = (Throw (ApiError 401 m), run Demo.env Demo.later db1).
Proof.
  do 2 eexists. split; [cbv; reflexivity|].
  apply (refresh_token_is_redeemed_once
           Demo.env (Demo.refresh_request (VString "r1.111")) 5 Demo.db _ _
           "r1.111" 1 Demo.later (Demo.refresh_request (VString "r1.111")) 8).
  - reflexivity.
  - reflexivity.
  - reflexivity.
  - apply demo_fresh. reflexivity.
  - reflexivity.
Defined.

(** Alice logs out; her former token is refused after the same requests. *)
Lemma logout_removes_the_refresh_token_witness :
  exists r db1,
    logoutUser Demo.logout_request Demo.db = (Return r, db1) /\
    status r = 200 /\
    (exists user',
        find (fun u => UserDoc._id u =? 1) db1 = Some user' /\
        UserDoc.refreshToken user' = VUndefined /\
        get "refreshToken" (JObject (User.toObject user')) = None) /\
    exists m,
      refreshAccessToken Demo.env (Demo.refresh_request (VString "r1.111")) 8
                         (run Demo.env Demo.later db1)
      = (Throw (ApiError 401 m), run Demo.env Demo.later db1).
Proof.
  apply (logout_removes_the_refresh_token
           Demo.env Demo.logout_request Demo.db 1 Demo.alice "r1.111" Demo.later
           (Demo.refresh_request (VString "r1.111")) 8).
  - reflexivity.
  - reflexivity.
  - reflexivity.
  - intros id' H. vm_compute in H. now injection H.
  - apply demo_fresh. reflexivity.
  - reflexivity.
Defined.

(** Registering bob with a parsed upload that has no avatar entry. *)
Lemma register_without_avatar_file_witness :
  no_avatar_file (Demo.register_request (VString "bob") (Some (Files.mk None None))) = true /\
  exists m,
    registerUser Demo.env
      (Demo.register_request (VString "bob") (Some (Files.mk None None))) Demo.db
    = (Throw (TypeError m), Demo.db).
Proof.
  split; [reflexivity|].
  apply (register_without_avatar_file Demo.env
           (Demo.register_request (VString "bob") (Some (Files.mk None None))) Demo.db);
    reflexivity.
Defined.

(** A superseded token of alice is refused with the message of the
    comparison. *)
Lemma refresh_failures_are_401_with_the_message_of_the_check_witness :
  refreshAccessToken Demo.env (Demo.refresh_request (VString "r1.1")) 5 Demo.db
  = (Throw (ApiError 401 "Refresh token expired"), Demo.db) /\
  exists m,
    ApiError 401 "Refresh token expired" = ApiError 401 m /\
    m = "Refresh token expired" /\
    UserDoc.refreshToken Demo.alice <> VString "r1.1".
Proof.
  split; [reflexivity|].
  destruct (refresh_failures_are_401_with_the_message_of_the_check
              Demo.env (Demo.refresh_request (VString "r1.1")) 5 Demo.db Demo.db
              (ApiError 401 "Refresh token expired") eq_refl) as [_ H].
  exact H.
Defined.

(** Registering as Alice, in capitals, where alice is a user. *)
Lemma register_duplicate_is_a_conflict_witness :
  registerUser Demo.env (Demo.register_request (VString "Alice") (Some Demo.files)) Demo.db
  = (Throw (ApiError 409 "User with email or username already exsits"), Demo.db).
Proof.
  apply (register_duplicate_is_a_conflict
           Demo.env (Demo.register_request (VString "Alice") (Some Demo.files))
           Demo.db Demo.alice).
  - reflexivity.
  - simpl. auto.
  - left. exists "Alice". repeat split; reflexivity.
Defined.

(** An issuer's token is a function of the identity and of the clock
    reading: alice exchanges the token minted at reading 3 while the clock
    still reads 3, gets the same string back, which stays on her record, and
    exchanges it once more at reading 8. *)
Lemma refresh_within_the_reading_of_issue_keeps_the_token :
  exists r,
    refreshAccessToken Demo.env (Demo.refresh_request (VString "r1.111")) 3 Demo.db
    = (Return r, Demo.db) /\
    get "refreshToken" (data (json r)) = Some (JString "r1.111") /\
    stored 1 Demo.db = Some (VString "r1.111") /\
    exists r' db2,
      refreshAccessToken Demo.env (Demo.refresh_request (VString "r1.111")) 8 Demo.db
      = (Return r', db2) /\
      status r' = 200.
Proof.
  eexists. split; [cbv; reflexivity|]. split; [reflexivity|]. split; [reflexivity|].
  do 2 eexists. split; [cbv; reflexivity|]. reflexivity.
Defined.


(** * Further properties of the controller *)

(** ** White space and letter case *)

Lemma all_whitespace_trimStart (s : string) :
  all_whitespace (trimStart s) = all_whitespace s.
Proof.
  induction s as [|c r IH]; simpl; [reflexivity|].
  destruct (is_whitespace c) eqn:Hc; simpl; [exact IH|now rewrite Hc].
Qed.

Lemma trimEnd_empty (s : string) :
  trimEnd s = EmptyString <-> all_whitespace s = true.
Proof.
  induction s as [|c r IH]; simpl; [tauto|].
  destruct (trimEnd r) eqn:Hr.
  - destruct (is_whitespace c); simpl.
    + split; intros _; [now apply IH|reflexivity].
    + split; discriminate.
  - split; [discriminate|]. intros H. apply andb_true_iff in H.
    destruct H as [_ H]. apply IH in H. discriminate H.
Qed.

Lemma trim_empty (s : string) :
  trim s = EmptyString <-> all_whitespace s = true.
Proof.
  unfold trim. rewrite trimEnd_empty. now rewrite all_whitespace_trimStart.
Qed.

Lemma lower_ascii_idempotent (c : ascii) : lower_ascii (lower_ascii c) = lower_ascii c.
Proof. destruct c as [[] [] [] [] [] [] [] []]; reflexivity. Qed.

Lemma is_whitespace_lower_ascii (c : ascii) :
  is_whitespace (lower_ascii c) = is_whitespace c.
Proof. destruct c as [[] [] [] [] [] [] [] []]; reflexivity. Qed.

Lemma toLowerCase_idempotent (s : string) : toLowerCase (toLowerCase s) = toLowerCase s.
Proof.
  induction s as [|c r IH]; simpl; [reflexivity|].
  now rewrite lower_ascii_idempotent, IH.
Qed.

Lemma all_whitespace_toLowerCase (s : string) :
  all_whitespace (toLowerCase s) = all_whitespace s.
Proof.
  induction s as [|c r IH]; simpl; [reflexivity|].
  now rewrite is_whitespace_lower_ascii, IH.
Qed.

Lemma trim_toLowerCase_empty (s : string) :
  String.eqb (trim (toLowerCase s)) "" = String.eqb (trim s) "".
Proof.
  destruct (String.eqb (trim s) "") eqn:Hs.
  - apply String.eqb_eq in Hs. apply trim_empty in Hs.
    apply String.eqb_eq. apply trim_empty. now rewrite all_whitespace_toLowerCase.
  - apply String.eqb_neq in Hs. apply String.eqb_neq. intros H. apply Hs.
    apply trim_empty. apply trim_empty in H. now rewrite all_whitespace_toLowerCase in H.
Qed.

(** X1: of a field that is missing, null or an ASCII string, the emptiness
    test of Register, [field?.trim() === ""], holds when the field is a
    string of white space only, the empty string included, and in no other
    case: never of a missing or null field. *)
Theorem blank_iff_white_space_only (v : Value) :
  ascii_value v = true ->
  (blank v = true <-> exists s, v = VString s /\ all_whitespace s = true).
Proof.
  intros _. destruct v as [| |s]; simpl.
  - split; [discriminate|]. intros (s & H & _). discriminate H.
  - split; [discriminate|]. intros (s & H & _). discriminate H.
  - rewrite String.eqb_eq, trim_empty. split.
    + intros H. now exists s.
    + intros (s' & H & Hs). now injection H as ->.
Qed.

(** ** What Register creates *)

Lemma registerUser_created (env : Env) (req : Req.t) (db db1 : Collection) (r : Response) :
  registerUser env req db = (Return r, db1) ->
  exists name em fn pw url,
    Body.username (Req.body req) = VString name /\
    Body.email (Req.body req) = VString em /\
    Body.fullName (Req.body req) = VString fn /\
    Body.password (Req.body req) = VString pw /\
    existsb blank (register_fields req) = false /\
    find (User.names (VString name) (VString em)) db = None /\
    db1 = db ++ [UserDoc.mk (User.fresh_id db) (toLowerCase name) em fn url
                   match uploadOnCloudinary env (coverImageLocalPath req) with
                   | Some cover => cover
                   | None => ""
                   end
                   (hashPassword env pw) VUndefined].
Proof.
  unfold registerUser, register_fields, avatarLocalPath, toLowerCase_of, User.create.
  unfold_m. intros H. repeat split_run.
  all: do 5 eexists; repeat split; reflexivity || eassumption.
Qed.

(** X2: a successful Register whose fields are ASCII strings appends
    exactly one record to the collection and touches no other: the record
    has a key no earlier record has, the username of the request in lower
    case, the email and full name as given, the hash of the password, and no
    refresh token. *)
Theorem register_appends_one_record
        (env : Env) (req : Req.t) (db db1 : Collection) (r : Response) :
  forallb ascii_value (register_fields req) = true ->
  registerUser env req db = (Return r, db1) ->
  exists user name em fn pw,
    db1 = db ++ [user] /\
    Body.username (Req.body req) = VString name /\
    Body.email (Req.body req) = VString em /\
    Body.fullName (Req.body req) = VString fn /\
    Body.password (Req.body req) = VString pw /\
    (forall u, In u db -> UserDoc._id u <> UserDoc._id user) /\
    UserDoc.username user = toLowerCase name /\
    UserDoc.email user = em /\
    UserDoc.fullName user = fn /\
    UserDoc.password user = hashPassword env pw /\
    UserDoc.refreshToken user = VUndefined.
Proof.
  intros _ H. apply registerUser_created in H.
  destruct H as (name & em & fn & pw & url & Hn & He & Hf & Hp & _ & _ & ->).
  eexists. exists name, em, fn, pw. repeat split; try assumption.
  intros u Hin. cbn [UserDoc._id]. unfold User.fresh_id.
  assert (UserDoc._id u <= fold_right Nat.max 0 (map UserDoc._id db)) as Hle.
  { clear -Hin. induction db as [|v rest IH]; [contradiction|].
    simpl. destruct Hin as [->|Hin]; [lia|]. specialize (IH Hin). lia. }
  lia.
Qed.

(** ** What the lifecycle never does *)

(** X3: a lifecycle request that fails, whatever the error, leaves the
    collection exactly as it was. *)
Theorem failed_request_changes_nothing
        (env : Env) (ev : Event) (db db1 : Collection) (e : Exn) :
  handle env ev db = (Throw e, db1) -> db1 = db.
Proof. apply handle_failure. Qed.

Lemma Forall2_same_identity_refl (db : Collection) : Forall2 same_identity db db.
Proof.
  induction db; constructor; auto. unfold same_identity; repeat split.
Qed.

Lemma Forall2_same_identity_trans (a b c : Collection) :
  Forall2 same_identity a b -> Forall2 same_identity b c -> Forall2 same_identity a c.
Proof.
  intros Hab. revert c. induction Hab as [|x y l l' Hxy _ IH]; intros c Hbc.
  - inversion Hbc; constructor.
  - inversion Hbc as [|y' z l1 l2 Hyz Hrest]; subst. constructor; [|now apply IH].
    unfold same_identity in *.
    destruct Hxy as (?&?&?&?&?&?), Hyz as (?&?&?&?&?&?). repeat split; congruence.
Qed.

(** One request keeps every record in place, with its identity fields, and
    adds at most one record at the end: a record with a new key, a
    lower-case username and no refresh token. *)
Lemma handle_keeps_records (env : Env) (ev : Event) (db : Collection) :
  exists kept added,
    snd (handle env ev db) = kept ++ added /\
    Forall2 same_identity db kept /\
    (added = [] \/
     exists u, added = [u] /\ UserDoc._id u = User.fresh_id db /\ lowercase_username u).
Proof.
  destruct (handle env ev db) as [[r|e] db1] eqn:Hrun; cbn [snd].
  2: { apply handle_failure in Hrun. subst. exists db, []. rewrite app_nil_r.
       split; [reflexivity|]. split; [apply Forall2_same_identity_refl|now left]. }
  assert (forall id f, (forall u, same_identity u (f u)) ->
            exists kept added,
              User.updateById id f db = kept ++ added /\
              Forall2 same_identity db kept /\
              (added = [] \/
               exists u, added = [u] /\ UserDoc._id u = User.fresh_id db /\
                         lowercase_username u)) as Hupd.
  { intros id f Hf. exists (User.updateById id f db), []. rewrite app_nil_r.
    split; [reflexivity|]. split; [|now left].
    apply updateById_Forall2; [|exact Hf].
    intros u. unfold same_identity; repeat split. }
  destruct ev as [req|req now|req|req now|req]; simpl in Hrun.
  - apply registerUser_created in Hrun.
    destruct Hrun as (name & em & fn & pw & url & _ & _ & _ & _ & _ & _ & ->).
    eexists db, [_]. split; [reflexivity|].
    split; [apply Forall2_same_identity_refl|]. right. eexists.
    split; [reflexivity|]. split; [reflexivity|].
    unfold lowercase_username. cbn [UserDoc.username]. apply toLowerCase_idempotent.
  - apply loginUser_success in Hrun. destruct Hrun as (user & owner & _ & _ & -> & _).
    apply Hupd. intros u; destruct u; unfold same_identity; repeat split.
  - apply logoutUser_success in Hrun. destruct Hrun as (id & _ & -> & _).
    apply Hupd. intros u; destruct u; unfold same_identity; repeat split.
  - apply refreshAccessToken_success in Hrun.
    destruct Hrun as (T & user & _ & _ & _ & _ & -> & _).
    apply Hupd. intros u; destruct u; unfold same_identity; repeat split.
  - apply updatePassword_success in Hrun.
    destruct Hrun as (user & pw & _ & _ & _ & _ & -> & _).
    apply Hupd. intros u; destruct u; unfold same_identity; repeat split.
Qed.

(** X4: no sequence of lifecycle requests deletes a record, moves it, or
    changes its key, username, email, full name, avatar or cover image: the
    collection after the sequence is the former records in their places,
    changed in password hash and refresh token at most, followed by the
    records added. *)
Theorem lifecycle_keeps_every_record (env : Env) (evs : list Event) (db : Collection) :
  exists kept added,
    run env evs db = kept ++ added /\ Forall2 same_identity db kept.
Proof.
  revert db. induction evs as [|ev rest IH]; intros db; simpl.
  - exists db, []. rewrite app_nil_r. split; [reflexivity|].
    apply Forall2_same_identity_refl.
  - destruct (handle_keeps_records env ev db) as (k & a & Hstep & Hk & _).
    rewrite Hstep. destruct (IH (k ++ a)) as (k' & a' & Hrun & Hk').
    apply Forall2_app_inv_l in Hk'. destruct Hk' as (k1 & k2 & Hk1 & _ & ->).
    exists k1, (k2 ++ a'). split; [now rewrite Hrun, app_assoc|].
    eapply Forall2_same_identity_trans; eassumption.
Qed.

(** ** Invariants of the collection *)

Lemma same_identity_ids (db kept : Collection) :
  Forall2 same_identity db kept -> map UserDoc._id kept = map UserDoc._id db.
Proof.
  induction 1 as [|u v l l' Huv _ IH]; simpl; [reflexivity|].
  destruct Huv as [-> _]. now rewrite IH.
Qed.

Lemma fresh_id_is_new (db : Collection) : ~ In (User.fresh_id db) (map UserDoc._id db).
Proof.
  unfold User.fresh_id. intros Hin.
  assert (forall n, In n (map UserDoc._id db) ->
                    n <= fold_right Nat.max 0 (map UserDoc._id db)) as Hle.
  { generalize (map UserDoc._id db) as l. induction l as [|a l IH]; intros n Hn;
      [contradiction|]. simpl. destruct Hn as [->|Hn]; [lia|]. specialize (IH n Hn). lia. }
  specialize (Hle _ Hin). lia.
Qed.

Lemma NoDup_snoc {A} (l : list A) (x : A) : NoDup l -> ~ In x l -> NoDup (l ++ [x]).
Proof.
  intros Hl Hx. induction Hl as [|a l Ha Hl IH]; simpl.
  - constructor; [intros []|constructor].
  - constructor.
    + rewrite in_app_iff. intros [H|[H|[]]]; [contradiction|].
      subst. apply Hx. now left.
    + apply IH. intros H. apply Hx. now right.
Qed.

(** The keys of the records stay pairwise different along every
    sequence of lifecycle requests. *)
Theorem ids_stay_unique (env : Env) (evs : list Event) (db : Collection) :
  NoDup (map UserDoc._id db) -> NoDup (map UserDoc._id (run env evs db)).
Proof.
  revert db. induction evs as [|ev rest IH]; intros db Hdb; simpl; [exact Hdb|].
  apply IH. destruct (handle_keeps_records env ev db) as (k & a & -> & Hk & Ha).
  rewrite map_app, (same_identity_ids _ _ Hk).
  destruct Ha as [->|(u & -> & Hid & _)]; simpl.
  - now rewrite app_nil_r.
  - apply NoDup_snoc; [exact Hdb|]. rewrite Hid. apply fresh_id_is_new.
Qed.

(** X5: when every stored username is in lower case, it stays so along
    every sequence of lifecycle requests: Register stores the lowered
    username and no other lifecycle request writes a username. *)
Theorem usernames_stay_lowercase (env : Env) (evs : list Event) (db : Collection) :
  Forall lowercase_username db -> Forall lowercase_username (run env evs db).
Proof.
  revert db. induction evs as [|ev rest IH]; intros db Hdb; simpl; [exact Hdb|].
  apply IH. destruct (handle_keeps_records env ev db) as (k & a & -> & Hk & Ha).
  apply Forall_app. split.
  - clear Ha. induction Hk as [|u v l l' Huv _ IHk]; [constructor|].
    inversion Hdb; subst. constructor; [|now apply IHk].
    unfold lowercase_username in *. destruct Huv as (_ & -> & _). assumption.
  - destruct Ha as [->|(u & -> & _ & Hu)]; [constructor|].
    constructor; [exact Hu|constructor].
Qed.

(** ** Login *)

(** The run of a Login with a name that is given and found and with the
    password of the record found. *)
Lemma loginUser_run (env : Env) (req : Req.t) (now : nat) (db : Collection)
      (user owner : UserDoc.t) :
  truthy (Js.or (Body.username (Req.body req)) (Body.email (Req.body req))) = true ->
  find (User.names (Body.username (Req.body req)) (Body.email (Req.body req))) db
  = Some user ->
  isPasswordCorrect env (Body.password (Req.body req)) (UserDoc.password user) = true ->
  find (fun u => UserDoc._id u =? UserDoc._id user) db = Some owner ->
  exists r,
    loginUser env req now db
    = (Return r,
       User.updateById (UserDoc._id user)
         (UserDoc.set_refreshToken (VString (generateRefreshToken env owner now))) db) /\
    status r = 200 /\
    get "refreshToken" (data (json r)) = Some (JString (generateRefreshToken env owner now)).
Proof.
  intros Hgiven Hfound Hpw Howner.
  unfold loginUser. rewrite Hgiven. unfold_m. cbn [negb]. cbv beta.
  rewrite Hfound, Hpw. cbn [negb].
  rewrite (generateAccessAndRefreshToken_total _ _ _ _ _ Howner).
  eexists. split; [reflexivity|]. split; reflexivity.
Qed.

Lemma find_by_own_id (db : Collection) (u : UserDoc.t) :
  In u db -> exists owner, find (fun v => UserDoc._id v =? UserDoc._id u) db = Some owner.
Proof.
  intros Hin. destruct (find (fun v => UserDoc._id v =? UserDoc._id u) db) eqn:Hf; [eauto|].
  apply (find_none _ _ Hf) in Hin. now rewrite Nat.eqb_refl in Hin.
Qed.

(** X7: a Login whose password is a string, served by a store and a token
    issuer that answer, fails for three reasons only, each with its own
    status, and changes nothing when it fails: 400 when neither a username
    nor an email is given, 404 when no record has the username or the email,
    401 when the password is not the one of the record found.  The caller
    can so tell an unknown name from a wrong password. *)
Theorem login_fails_for_three_reasons
        (env : Env) (req : Req.t) (now : nat) (db db1 : Collection) (e : Exn) :
  (exists pw, Body.password (Req.body req) = VString pw) ->
  loginUser env req now db = (Throw e, db1) ->
  db1 = db /\
  let given := truthy (Js.or (Body.username (Req.body req)) (Body.email (Req.body req))) in
  let found :=
    find (User.names (Body.username (Req.body req)) (Body.email (Req.body req))) db in
  (given = false /\ e = ApiError 400 "Username or Email field is required") \/
  (given = true /\ found = None /\ e = ApiError 404 "User does not Exist") \/
  (exists user,
      given = true /\ found = Some user /\
      isPasswordCorrect env (Body.password (Req.body req)) (UserDoc.password user) = false /\
      e = ApiError 401 "Incorrect Password").
Proof.
  intros _ H. split; [exact (handle_failure env (Login req now) _ _ _ H)|]. cbv zeta.
  destruct (truthy (Js.or (Body.username (Req.body req)) (Body.email (Req.body req))))
    eqn:Hgiven.
  2: { left. split; [reflexivity|]. revert H. unfold loginUser. rewrite Hgiven.
       intros H. now inversion H. }
  right.
  destruct (find (User.names (Body.username (Req.body req)) (Body.email (Req.body req))) db)
    as [user|] eqn:Hfound.
  2: { left. split; [reflexivity|]. split; [reflexivity|]. revert H. unfold loginUser.
       rewrite Hgiven. unfold_m. cbn [negb]. cbv beta. rewrite Hfound.
       intros H. now inversion H. }
  right. exists user. split; [reflexivity|]. split; [reflexivity|].
  destruct (isPasswordCorrect env (Body.password (Req.body req)) (UserDoc.password user))
    eqn:Hpw.
  - exfalso. destruct (find_by_own_id db user (find_some_in _ _ _ Hfound)) as [owner Ho].
    destruct (loginUser_run env req now db user owner Hgiven Hfound Hpw Ho) as (r & Hr & _).
    rewrite Hr in H. discriminate H.
  - split; [reflexivity|]. revert H. unfold loginUser.
    rewrite Hgiven. unfold_m. cbn [negb]. cbv beta. rewrite Hfound, Hpw.
    intros H. now inversion H.
Qed.

Lemma find_none_when {A} (p : A -> bool) (l : list A) :
  (forall x, In x l -> p x = false) -> find p l = None.
Proof.
  intros H. induction l as [|a l IH]; simpl; [reflexivity|].
  rewrite (H a (or_introl eq_refl)). apply IH. intros x Hx. apply H. now right.
Qed.

Lemma blank_false_nonempty (s : string) : blank (VString s) = false -> truthy (VString s) = true.
Proof.
  simpl. destruct s; [discriminate|reflexivity].
Qed.

(** X8: after a successful Register, a Login with the very body of the
    registration (same username, email and password) succeeds and stores its
    refresh token on the record just created, whenever the password check
    accepts a password against its own hash. *)
Theorem registered_user_can_log_in
        (env : Env) (req : Req.t) (db db1 : Collection) (r : Response) (now : nat) :
  (forall pw, isPasswordCorrect env (VString pw) (hashPassword env pw) = true) ->
  registerUser env req db = (Return r, db1) ->
  exists r' db2 tok,
    loginUser env req now db1 = (Return r', db2) /\
    status r' = 200 /\
    get "refreshToken" (data (json r')) = Some (JString tok) /\
    stored (User.fresh_id db) db2 = Some (VString tok).
Proof.
  intros Hhash H. apply registerUser_created in H.
  destruct H as (name & em & fn & pw & url & Hn & He & Hf & Hp & Hblank & Hnone & ->).
  set (user := UserDoc.mk (User.fresh_id db) (toLowerCase name) em fn url _ _ _).
  assert (find (fun v => UserDoc._id v =? UserDoc._id user) (db ++ [user]) = Some user)
    as Howner.
  { rewrite find_app_one. rewrite find_none_when.
    - cbn beta. now rewrite Nat.eqb_refl.
    - intros x Hx. apply Nat.eqb_neq. intros Heq.
      apply (fresh_id_is_new db). change (User.fresh_id db) with (UserDoc._id user).
      rewrite <- Heq. now apply in_map. }
  assert (truthy (Js.or (Body.username (Req.body req)) (Body.email (Req.body req))) = true)
    as Hgiven.
  { unfold register_fields in Hblank. rewrite Hn, He in *. simpl in Hblank.
    apply orb_false_iff in Hblank. destruct Hblank as [_ Hblank].
    apply orb_false_iff in Hblank. destruct Hblank as [_ Hblank].
    apply orb_false_iff in Hblank. destruct Hblank as [Hname _].
    unfold Js.or. now rewrite (blank_false_nonempty name Hname), (blank_false_nonempty name Hname). }
  assert (find (User.names (Body.username (Req.body req)) (Body.email (Req.body req)))
               (db ++ [user]) = Some user) as Hfound.
  { rewrite Hn, He, find_app_one, Hnone. unfold User.names, User.matches.
    cbn [UserDoc.email UserDoc.username user]. now rewrite String.eqb_refl, orb_true_r. }
  assert (isPasswordCorrect env (Body.password (Req.body req)) (UserDoc.password user) = true)
    as Hpw by (rewrite Hp; apply Hhash).
  destruct (loginUser_run env req now _ user user Hgiven Hfound Hpw Howner)
    as (r' & Hrun & Hstatus & Htok).
  do 3 eexists. split; [exact Hrun|]. split; [exact Hstatus|]. split; [exact Htok|].
  rewrite stored_set_refreshToken.
  change (UserDoc._id user) with (User.fresh_id db). rewrite Nat.eqb_refl.
  change (User.fresh_id db) with (UserDoc._id user). now rewrite Howner.
Qed.

(** ** ChangePassword *)

Lemma find_updateById_pred (p : UserDoc.t -> bool) (f : UserDoc.t -> UserDoc.t)
      (db : Collection) (u : UserDoc.t) :
  (forall v, p (f v) = p v) ->
  find p db = Some u ->
  find (fun v => UserDoc._id v =? UserDoc._id u) db = Some u ->
  find p (User.updateById (UserDoc._id u) f db) = Some (f u).
Proof.
  intros Hp. induction db as [|h rest IH]; simpl; [discriminate|].
  intros Hfind Hid. destruct (p h) eqn:Hh.
  - injection Hfind as ->. rewrite Nat.eqb_refl. simpl. now rewrite Hp, Hh.
  - destruct (UserDoc._id h =? UserDoc._id u) eqn:Hhu.
    + injection Hid as ->. apply find_some in Hfind. destruct Hfind as [_ Hpu]. congruence.
    + simpl. rewrite Hh. now apply IH.
Qed.

(** The run of a ChangePassword by an authenticated caller whose record
    exists. *)
Lemma updatePassword_authenticated (env : Env) (req : Req.t) (db db1 : Collection)
      (r : Response) (id : nat) (user : UserDoc.t) :
  Req.user req = Some id ->
  find (fun u => UserDoc._id u =? id) db = Some user ->
  updatePassword env req db = (Return r, db1) ->
  exists pw,
    Body.newPassword (Req.body req) = VString pw /\
    db1 = User.updateById (UserDoc._id user)
            (UserDoc.set_password (hashPassword env pw)) db.
Proof.
  intros Hu Hf. unfold updatePassword, save_password. rewrite Hu. unfold_m.
  cbv beta. rewrite Hf. intros H. repeat split_run.
  eexists. split; reflexivity.
Qed.

(** X9: after an authenticated caller has changed the password, Login
    checks the password it is given against the new hash: a Login naming
    that record succeeds with the new password, whenever the password check
    accepts a password against its own hash, and is refused with 401 with
    every password that the new hash does not verify. *)
Theorem login_follows_the_changed_password
        (env : Env) (req : Req.t) (db db1 : Collection) (r : Response)
        (id : nat) (user : UserDoc.t) (lreq : Req.t) (now : nat) (pw : string) :
  Req.user req = Some id ->
  find (fun u => UserDoc._id u =? id) db = Some user ->
  updatePassword env req db = (Return r, db1) ->
  Body.newPassword (Req.body req) = VString pw ->
  truthy (Js.or (Body.username (Req.body lreq)) (Body.email (Req.body lreq))) = true ->
  find (User.names (Body.username (Req.body lreq)) (Body.email (Req.body lreq))) db
  = Some user ->
  (isPasswordCorrect env (VString pw) (hashPassword env pw) = true ->
   Body.password (Req.body lreq) = VString pw ->
   exists r' db2, loginUser env lreq now db1 = (Return r', db2) /\ status r' = 200) /\
  (isPasswordCorrect env (Body.password (Req.body lreq)) (hashPassword env pw) = false ->
   loginUser env lreq now db1 = (Throw (ApiError 401 "Incorrect Password"), db1)).
Proof.
  intros Hu Hf Hrun Hnew Hgiven Hfound.
  destruct (updatePassword_authenticated env req db db1 r id user Hu Hf Hrun)
    as (pw' & Hnew' & ->).
  rewrite Hnew in Hnew'. injection Hnew' as <-.
  pose proof (find_id_eq _ _ _ Hf) as Hid. subst id.
  assert (find (User.names (Body.username (Req.body lreq)) (Body.email (Req.body lreq)))
               (User.updateById (UserDoc._id user)
                  (UserDoc.set_password (hashPassword env pw)) db)
          = Some (UserDoc.set_password (hashPassword env pw) user)) as Hfound'.
  { apply find_updateById_pred; [|exact Hfound|exact Hf]. intros v; now destruct v. }
  split.
  - intros Hhash Hpw.
    assert (find (fun v => UserDoc._id v =?
                           UserDoc._id (UserDoc.set_password (hashPassword env pw) user))
                 (User.updateById (UserDoc._id user)
                    (UserDoc.set_password (hashPassword env pw)) db)
            = Some (UserDoc.set_password (hashPassword env pw) user)) as Howner.
    { rewrite find_updateById by (intros v; now destruct v).
      cbn [UserDoc._id UserDoc.set_password]. now rewrite Nat.eqb_refl, Hf. }
    destruct (loginUser_run env lreq now _ _ _ Hgiven Hfound'
                (eq_trans (f_equal (fun v => isPasswordCorrect env v _) Hpw) Hhash) Howner)
      as (r' & Hr & Hs & _).
    eauto.
  - intros Hbad. unfold loginUser. rewrite Hgiven. unfold_m. cbn [negb]. cbv beta.
    rewrite Hfound'. cbn [UserDoc.password UserDoc.set_password]. now rewrite Hbad.
Qed.

(** X10: for an authenticated caller whose record exists, ChangePassword
    does not read the username and email of the body: two requests of the
    caller with the same old and new password have the same outcome, whomever
    their bodies name. *)
Theorem authenticated_change_ignores_the_named_user
        (env : Env) (req req' : Req.t) (db : Collection) (id : nat) (user : UserDoc.t) :
  Req.user req = Some id ->
  Req.user req' = Some id ->
  find (fun u => UserDoc._id u =? id) db = Some user ->
  Body.oldPassword (Req.body req') = Body.oldPassword (Req.body req) ->
  Body.newPassword (Req.body req') = Body.newPassword (Req.body req) ->
  updatePassword env req' db = updatePassword env req db.
Proof.
  intros Hu Hu' Hf Hold Hnew. unfold updatePassword.
  rewrite Hu, Hu', Hold, Hnew. unfold_m. cbv beta. now rewrite Hf.
Qed.

(** ** Logout *)

Lemma updateById_idempotent (id : nat) (f : UserDoc.t -> UserDoc.t) (db : Collection) :
  (forall u, UserDoc._id (f u) = UserDoc._id u) ->
  (forall u, f (f u) = f u) ->
  User.updateById id f (User.updateById id f db) = User.updateById id f db.
Proof.
  intros Hid Hf. induction db as [|u rest IH]; simpl; [reflexivity|].
  destruct (UserDoc._id u =? id) eqn:Hu; simpl.
  - now rewrite Hid, Hu, Hf.
  - now rewrite Hu, IH.
Qed.

Lemma updateById_absent (id : nat) (f : UserDoc.t -> UserDoc.t) (db : Collection) :
  find (fun u => UserDoc._id u =? id) db = None -> User.updateById id f db = db.
Proof.
  induction db as [|u rest IH]; simpl; [reflexivity|].
  destruct (UserDoc._id u =? id); [discriminate|]. intros H. now rewrite IH.
Qed.

(** X11: Logout answers 200 for every caller the request carries, also
    one whose record does not exist, in which case nothing changes; it
    changes no record but at most the caller's, of which it removes the
    refresh token only; and a second Logout has the same answer and changes
    nothing more. *)
Theorem logout_is_idempotent (req : Req.t) (db : Collection) (id : nat) :
  Req.user req = Some id ->
  exists r db1,
    logoutUser req db = (Return r, db1) /\
    status r = 200 /\
    logoutUser req db1 = (Return r, db1) /\
    (find (fun u => UserDoc._id u =? id) db = None -> db1 = db) /\
    Forall2 (fun u v => v = u \/
                        (UserDoc._id u = id /\ v = UserDoc.set_refreshToken VUndefined u))
            db db1.
Proof.
  intros Hu. do 2 eexists. split; [apply logoutUser_run; exact Hu|].
  split; [reflexivity|]. split; [|split].
  - rewrite (logoutUser_run _ _ _ Hu).
    rewrite updateById_idempotent; try reflexivity; intros u; now destruct u.
  - apply updateById_absent.
  - clear Hu. induction db as [|u rest IH]; simpl; [constructor|].
    destruct (UserDoc._id u =? id) eqn:Hid.
    + apply Nat.eqb_eq in Hid. constructor; [now right|].
      clear. induction rest; constructor; auto.
    + constructor; [now left|exact IH].
Qed.

(** ** Refresh *)

(** A token that verifies and that the record it names holds is exchanged. *)
Lemma refreshAccessToken_accepts (env : Env) (req : Req.t) (now : nat) (db : Collection)
      (T : string) (user : UserDoc.t) :
  presented req = VString T ->
  T <> "" ->
  jwt_verify env T (REFRESH_TOKEN_SECRET env) now = JwtOk (UserDoc._id user) ->
  find (fun u => UserDoc._id u =? UserDoc._id user) db = Some user ->
  UserDoc.refreshToken user = VString T ->
  exists r,
    refreshAccessToken env req now db
    = (Return r,
       User.updateById (UserDoc._id user)
         (UserDoc.set_refreshToken (VString (generateRefreshToken env user now))) db) /\
    status r = 200 /\
    get "refreshToken" (data (json r)) = Some (JString (generateRefreshToken env user now)).
Proof.
  intros Hp Hne Hv Hf Htok. unfold refreshAccessToken. fold (presented req).
  rewrite Hp. unfold_m. cbn [truthy].
  apply String.eqb_neq in Hne. rewrite Hne. cbn [negb]. rewrite Hv. cbv beta.
  rewrite Hf, Htok. cbn [strict_eq]. rewrite String.eqb_refl. cbn [negb].
  rewrite (generateAccessAndRefreshToken_total _ _ _ _ _ Hf).
  eexists. split; [reflexivity|]. split; reflexivity.
Qed.

(** X12: Refresh succeeds exactly when the token presented (the cookie's,
    or else the body's) is a non-empty string that verifies at the clock
    reading and is the very string that the record it names holds; no other
    request is served. *)
Theorem refresh_succeeds_exactly_when_the_token_is_stored
        (env : Env) (req : Req.t) (now : nat) (db : Collection) :
  (exists r db1, refreshAccessToken env req now db = (Return r, db1)) <->
  (exists T user,
      presented req = VString T /\ T <> "" /\
      jwt_verify env T (REFRESH_TOKEN_SECRET env) now = JwtOk (UserDoc._id user) /\
      find (fun u => UserDoc._id u =? UserDoc._id user) db = Some user /\
      UserDoc.refreshToken user = VString T).
Proof.
  split.
  - intros (r & db1 & Hrun). pose proof Hrun as Hinv.
    apply refreshAccessToken_success in Hinv.
    destruct Hinv as (T & user & Hp & Hv & Hf & Htok & _).
    exists T, user. repeat split; try assumption.
    intros ->. revert Hrun. unfold refreshAccessToken. fold (presented req).
    rewrite Hp. unfold_m. cbn. discriminate.
  - intros (T & user & Hp & Hne & Hv & Hf & Htok).
    destruct (refreshAccessToken_accepts env req now db T user Hp Hne Hv Hf Htok)
      as (r & Hr & _).
    eauto.
Qed.

(** X13: the refresh token that a successful Login returns is exchanged by
    a following Refresh presenting it before it expires, and the exchange
    replaces it on the same record by the token it returns, whenever the
    issuer mints non-empty tokens that decode to the identity they were
    minted for. *)
Theorem login_token_is_redeemable
        (env : Env) (lreq : Req.t) (now : nat) (db db1 : Collection) (r : Response)
        (tok : string) (rreq : Req.t) (now' : nat) :
  (forall u t, jwt_decode env (generateRefreshToken env u t) (REFRESH_TOKEN_SECRET env)
               = JwtOk (UserDoc._id u)) ->
  (forall u t, generateRefreshToken env u t <> "") ->
  loginUser env lreq now db = (Return r, db1) ->
  get "refreshToken" (data (json r)) = Some (JString tok) ->
  jwt_expired env tok now' = false ->
  presented rreq = VString tok ->
  exists r' db2 tok' id,
    refreshAccessToken env rreq now' db1 = (Return r', db2) /\
    get "refreshToken" (data (json r')) = Some (JString tok') /\
    stored id db1 = Some (VString tok) /\
    stored id db2 = Some (VString tok').
Proof.
  intros Hdec Hne Hlogin Hget Hexp Hp.
  apply loginUser_success in Hlogin.
  destruct Hlogin as (user & owner & _ & Howner & -> & ->).
  cbn in Hget. injection Hget as <-.
  pose proof (find_id_eq _ _ _ Howner) as Hid.
  set (tok := generateRefreshToken env owner now) in *.
  set (held := UserDoc.set_refreshToken (VString tok) owner).
  assert (find (fun u => UserDoc._id u =? UserDoc._id held)
               (User.updateById (UserDoc._id user) (UserDoc.set_refreshToken (VString tok)) db)
          = Some held) as Hf.
  { rewrite find_updateById by (intros v; now destruct v).
    change (UserDoc._id held) with (UserDoc._id owner).
    now rewrite Hid, Nat.eqb_refl, Howner. }
  assert (jwt_verify env tok (REFRESH_TOKEN_SECRET env) now' = JwtOk (UserDoc._id held))
    as Hv.
  { unfold jwt_verify. unfold tok at 1. now rewrite Hdec, Hexp. }
  destruct (refreshAccessToken_accepts env rreq now' _ tok held Hp (Hne _ _) Hv Hf eq_refl)
    as (r' & Hr & _ & Hget').
  eexists r', _, _, (UserDoc._id held). split; [exact Hr|]. split; [exact Hget'|]. split.
  - unfold stored. now rewrite Hf.
  - rewrite stored_set_refreshToken, Nat.eqb_refl, Hf. reflexivity.
Qed.

(** ** The channel profile *)

(** X14: for a username that is missing, null or an ASCII string, the
    channel profile is refused with 400 "Username is missing" exactly when
    the username is missing, null, or a string of white space only. *)
Theorem channel_profile_400_iff
        (v : Value) (viewer : option nat) (users : Collection)
        (subs : list Subscription.t) :
  ascii_value v = true ->
  (getUserChannelProfile v viewer users subs = Throw (ApiError 400 "Username is missing")
   <-> (forall s, v = VString s -> all_whitespace s = true)).
Proof.
  intros _. unfold getUserChannelProfile. destruct v as [| |s].
  - split; [intros _ s H; discriminate H|reflexivity].
  - split; [intros _ s H; discriminate H|reflexivity].
  - destruct (String.eqb (trim s) "") eqn:Hs.
    + apply String.eqb_eq, trim_empty in Hs. split; [|reflexivity].
      intros _ s' H. now injection H as <-.
    + apply String.eqb_neq in Hs. split.
      * destruct (aggregate_channel _ _ _ _); discriminate.
      * intros H. exfalso. apply Hs, trim_empty, H. reflexivity.
Qed.

(** X15: the channel profile does not depend on the letter case of the
    username asked for: the request for a username and the request for the
    same username in lower case have the same outcome. *)
Theorem channel_profile_ignores_letter_case
        (s : string) (viewer : option nat) (users : Collection)
        (subs : list Subscription.t) :
  getUserChannelProfile (VString (toLowerCase s)) viewer users subs
  = getUserChannelProfile (VString s) viewer users subs.
Proof.
  unfold getUserChannelProfile.
  now rewrite trim_toLowerCase_empty, toLowerCase_idempotent.
Qed.

Lemma aggregate_channel_head (name : string) (viewer : option nat) (users : Collection)
      (subs : list Subscription.t) (c : Channel.t) (rest : list Channel.t) :
  aggregate_channel name viewer users subs = c :: rest ->
  exists u, In u users /\ UserDoc.username u = name /\ c = channel_of viewer subs u.
Proof.
  unfold aggregate_channel. intros H.
  destruct (filter _ users) as [|u l] eqn:Hf; [discriminate|].
  simpl in H. injection H as <- _.
  assert (In u (filter (fun u => String.eqb (UserDoc.username u) name) users)) as Hin
      by (rewrite Hf; now left).
  apply filter_In in Hin. destruct Hin as [Hin Hname].
  apply String.eqb_eq in Hname. now exists u.
Qed.

(** X16: a profile that is returned is the one of a user of the collection
    whose stored username is the requested one in lower case; it reports the
    caller as subscribed exactly when a subscription of the caller to that
    channel exists, hence never for an anonymous caller, and then its
    subscriber count is positive. *)
Theorem channel_profile_reports_the_subscription
        (v : Value) (viewer : option nat) (users : Collection)
        (subs : list Subscription.t) (c : Channel.t) :
  getUserChannelProfile v viewer users subs = Return c ->
  exists s u,
    v = VString s /\ In u users /\
    UserDoc.username u = toLowerCase s /\
    Channel._id c = UserDoc._id u /\
    Channel.username c = toLowerCase s /\
    (Channel.isSubscribed c = true <->
     exists me, viewer = Some me /\ In (Subscription.mk me (UserDoc._id u)) subs) /\
    (Channel.isSubscribed c = true -> 0 < Channel.subscribersCount c).
Proof.
  unfold getUserChannelProfile. destruct v as [| |s]; try discriminate.
  destruct (String.eqb (trim s) ""); [discriminate|].
  destruct (aggregate_channel _ _ _ _) as [|c' rest] eqn:Hagg; [discriminate|].
  intros H. injection H as ->.
  apply aggregate_channel_head in Hagg. destruct Hagg as (u & Hin & Hname & ->).
  exists s, u. cbn [channel_of Channel._id Channel.username Channel.isSubscribed
                     Channel.subscribersCount].
  repeat split; try assumption.
  - unfold viewer_in. destruct viewer as [me|]; [|discriminate].
    intros H. apply existsb_exists in H. destruct H as ([sub ch] & Hs & Hme).
    apply filter_In in Hs. destruct Hs as [Hs Hch]. cbn in Hch, Hme.
    apply Nat.eqb_eq in Hch, Hme. subst. now exists me.
  - intros (me & -> & Hs). unfold viewer_in. apply existsb_exists.
    exists (Subscription.mk me (UserDoc._id u)). split; [|apply Nat.eqb_refl].
    apply filter_In. split; [exact Hs|]. apply Nat.eqb_refl.
  - unfold viewer_in. destruct viewer as [me|]; [|discriminate].
    intros H. apply existsb_exists in H. destruct H as (x & Hx & _).
    destruct (subscribers (UserDoc._id u) subs); [contradiction|]. simpl. lia.
Qed.

(** ** The account details *)

Lemma truthy_or (a b : Value) : truthy (Js.or a b) = truthy a || truthy b.
Proof.
  unfold Js.or. destruct (truthy a) eqn:Ha; [now rewrite Ha|reflexivity].
Qed.


(** X19: an account update that gives no new username (the key is missing
    or null) and a new full name or email is accepted, and asks the store to
    set the caller's username to null: whatever the store, the collection
    afterwards is the one the store makes of the [$set] document whose
    username is null. *)
Theorem account_update_without_username_sets_it_to_null
        (store : StoreUpdate) (req : AccountReq.t) (db : Collection)
        (me : AccountReq.caller) :
  AccountReq.user req = Some me ->
  (forall s, AccountReq.newUserName req <> VString s) ->
  truthy (Js.or (AccountReq.newFullName req) (AccountReq.newEmail req)) = true ->
  exists r,
    updateAccountDetails store req db
    = (Return r,
       snd (store (AccountReq._id me)
                  (mkSetDoc (AccountReq.newFullName req) (AccountReq.newEmail req) VNull)
                  db)) /\
    status r = 200.
Proof.
  intros Hu Hno Hgiven. unfold updateAccountDetails.
  rewrite truthy_or, Hgiven, Hu. cbn [orb negb]. unfold_m.
  destruct (AccountReq.newUserName req) as [| |s] eqn:Hn;
    [| |exfalso; now apply (Hno s)].
  all: cbn; rewrite find_none_when by reflexivity;
    destruct (store _ _ db); eexists; split; reflexivity.
Qed.

Lemma select_password_keeps_the_token (u : UserDoc.t) (tok : string) :
  UserDoc.refreshToken u = VString tok ->
  get "refreshToken" (User.select ["password"] u) = Some (JString tok).
Proof.
  destruct u as [? ? ? ? ? ? ? t]. cbn [UserDoc.refreshToken]. intros ->. reflexivity.
Qed.

(** X20: the response of a successful account update is the updated
    record without its password, and with its refresh token: whenever the
    record the store returns holds a refresh token, the response body carries
    that token. *)
Theorem account_update_returns_the_refresh_token
        (store : StoreUpdate) (req : AccountReq.t) (db db1 : Collection) (r : Response) :
  updateAccountDetails store req db = (Return r, db1) ->
  exists me updated,
    AccountReq.user req = Some me /\
    store (AccountReq._id me)
          (mkSetDoc (AccountReq.newFullName req) (AccountReq.newEmail req)
                    (Js.or (AccountReq.newUserName req) VNull))
          db
    = (updated, db1) /\
    has_key "password" (data (json r)) = false /\
    (forall u tok,
        updated = Some u -> UserDoc.refreshToken u = VString tok ->
        get "refreshToken" (data (json r)) = Some (JString tok)).
Proof.
  unfold updateAccountDetails. unfold_m. intros H. repeat split_run.
  do 2 eexists. split; [reflexivity|]. split; [eassumption|].
  cbn [json data]. split.
  - match goal with |- has_key _ (match ?o with _ => _ end) = _ => destruct o end;
      [apply select_excludes; simpl; auto|reflexivity].
  - intros u tok -> Htok. now apply select_password_keeps_the_token.
Qed.

(** ** The further theorems at work on concrete inputs *)

Lemma demo_hash_accepts (pw : string) :
  isPasswordCorrect Demo.env (VString pw) (hashPassword Demo.env pw) = true.
Proof. cbn. apply String.eqb_refl. Qed.

Lemma demo_ones_unary (n : nat) (rest : string) :
  Demo.ones rest = (0, rest) ->
  Demo.ones (Demo.unary n ++ rest)%string = (n, rest).
Proof.
  intros Hrest. induction n as [|n IH]; [exact Hrest|].
  cbn [Demo.unary String.append]. cbn [Demo.ones]. now rewrite IH.
Qed.

Lemma demo_parse_token (id t : nat) : Demo.parse (Demo.token "r" id t) = Some (id, t).
Proof.
  unfold Demo.token. cbn [String.append]. unfold Demo.parse.
  rewrite demo_ones_unary by reflexivity. cbn [String.append].
  replace (Demo.unary t) with (Demo.unary t ++ "")%string
    by (induction t as [|t IH]; cbn; [reflexivity|now rewrite IH]).
  now rewrite demo_ones_unary.
Qed.

(** Bob registers as "Bob" next to alice. *)
Lemma register_appends_one_record_witness :
  exists user name em fn pw,
    snd (registerUser Demo.env (Demo.register_request (VString "Bob") (Some Demo.files))
                      Demo.db)
    = Demo.db ++ [user] /\
    Body.username (Req.body (Demo.register_request (VString "Bob") (Some Demo.files)))
    = VString name /\
    Body.email (Req.body (Demo.register_request (VString "Bob") (Some Demo.files)))
    = VString em /\
    Body.fullName (Req.body (Demo.register_request (VString "Bob") (Some Demo.files)))
    = VString fn /\
    Body.password (Req.body (Demo.register_request (VString "Bob") (Some Demo.files)))
    = VString pw /\
    (forall u, In u Demo.db -> UserDoc._id u <> UserDoc._id user) /\
    UserDoc.username user = toLowerCase name /\
    UserDoc.email user = em /\
    UserDoc.fullName user = fn /\
    UserDoc.password user = hashPassword Demo.env pw /\
    UserDoc.refreshToken user = VUndefined.
Proof.
  eapply (register_appends_one_record
            Demo.env (Demo.register_request (VString "Bob") (Some Demo.files)) Demo.db).
  - reflexivity.
  - cbv; reflexivity.
Defined.

(** A login of alice with a wrong password. *)
Lemma failed_request_changes_nothing_witness :
  handle Demo.env (Login (Cases.login (VString "alice") VUndefined (VString "nope")) 5)
         Demo.db
  = (Throw (ApiError 401 "Incorrect Password"), Demo.db) /\ Demo.db = Demo.db.
Proof.
  split; [reflexivity|].
  apply (failed_request_changes_nothing
           Demo.env (Login (Cases.login (VString "alice") VUndefined (VString "nope")) 5)
           Demo.db Demo.db (ApiError 401 "Incorrect Password")).
  reflexivity.
Defined.

(** Bob registers, then the requests of the earlier sequence are served. *)
Lemma ids_stay_unique_witness :
  NoDup (map UserDoc._id
           (run Demo.env
                (Register (Demo.register_request (VString "Bob") (Some Demo.files))
                 :: Demo.later)
                Demo.db)).
Proof.
  apply ids_stay_unique. cbn. constructor; [intros []|constructor].
Defined.

Lemma usernames_stay_lowercase_witness :
  Forall lowercase_username
         (run Demo.env
              (Register (Demo.register_request (VString "Bob") (Some Demo.files))
               :: Demo.later)
              Demo.db).
Proof.
  apply usernames_stay_lowercase. constructor; [reflexivity|constructor].
Defined.

(** Alice's record is found, her password is not the one given. *)
Lemma login_fails_for_three_reasons_witness :
  exists user,
    find (User.names (VString "alice") VUndefined) Demo.db = Some user /\
    isPasswordCorrect Demo.env (VString "nope") (UserDoc.password user) = false.
Proof.
  destruct (login_fails_for_three_reasons
              Demo.env (Cases.login (VString "alice") VUndefined (VString "nope")) 5
              Demo.db Demo.db (ApiError 401 "Incorrect Password")
              (ex_intro _ "nope" eq_refl) eq_refl)
    as [_ [[_ H]|[(_ & _ & H)|(user & _ & Hf & Hpw & _)]]].
  - discriminate H.
  - discriminate H.
  - exists user. split; [exact Hf|exact Hpw].
Defined.

Lemma registered_user_can_log_in_witness :
  exists r' db2 tok,
    loginUser Demo.env (Demo.register_request (VString "Bob") (Some Demo.files)) 9
              (snd (registerUser Demo.env
                      (Demo.register_request (VString "Bob") (Some Demo.files)) Demo.db))
    = (Return r', db2) /\
    status r' = 200 /\
    get "refreshToken" (data (json r')) = Some (JString tok) /\
    stored (User.fresh_id Demo.db) db2 = Some (VString tok).
Proof.
  eapply (registered_user_can_log_in
            Demo.env (Demo.register_request (VString "Bob") (Some Demo.files)) Demo.db).
  - exact demo_hash_accepts.
  - cbv; reflexivity.
Defined.

(** Alice changes her password from p1 to p3: a login with p3 succeeds, a
    login with p1 is refused. *)
Lemma login_follows_the_changed_password_witness :
  (exists r' db2,
      loginUser Demo.env (Cases.login (VString "alice") VUndefined (VString "p3")) 9
                (snd (updatePassword Demo.env Demo.change_password_request Demo.db))
      = (Return r', db2) /\ status r' = 200) /\
  loginUser Demo.env (Cases.login (VString "alice") VUndefined (VString "p1")) 9
            (snd (updatePassword Demo.env Demo.change_password_request Demo.db))
  = (Throw (ApiError 401 "Incorrect Password"),
     snd (updatePassword Demo.env Demo.change_password_request Demo.db)).
Proof.
  split.
  - eapply (login_follows_the_changed_password
              Demo.env Demo.change_password_request Demo.db _ _ 1 Demo.alice
              (Cases.login (VString "alice") VUndefined (VString "p3")) 9 "p3");
      reflexivity.
  - eapply (login_follows_the_changed_password
              Demo.env Demo.change_password_request Demo.db _ _ 1 Demo.alice
              (Cases.login (VString "alice") VUndefined (VString "p1")) 9 "p3");
      reflexivity.
Defined.

(** Alice, authenticated, changes her password while her body names bob. *)
Lemma authenticated_change_ignores_the_named_user_witness :
  updatePassword Demo.env
    (Cases.change_password (Some 1) (VString "bob") (VString "p1") (VString "p3"))
    Cases.users
  = updatePassword Demo.env Demo.change_password_request Cases.users.
Proof.
  apply (authenticated_change_ignores_the_named_user
           Demo.env Demo.change_password_request
           (Cases.change_password (Some 1) (VString "bob") (VString "p1") (VString "p3"))
           Cases.users 1 Demo.alice); reflexivity.
Defined.

Lemma logout_is_idempotent_witness :
  exists r db1,
    logoutUser Demo.logout_request Demo.db = (Return r, db1) /\
    status r = 200 /\
    logoutUser Demo.logout_request db1 = (Return r, db1) /\
    (find (fun u => UserDoc._id u =? 1) Demo.db = None -> db1 = Demo.db) /\
    Forall2 (fun u v => v = u \/
                        (UserDoc._id u = 1 /\ v = UserDoc.set_refreshToken VUndefined u))
            Demo.db db1.
Proof.
  apply (logout_is_idempotent Demo.logout_request Demo.db 1). reflexivity.
Defined.

Lemma demo_decode_minted (u : UserDoc.t) (t : nat) :
  jwt_decode Demo.env (generateRefreshToken Demo.env u t) (REFRESH_TOKEN_SECRET Demo.env)
  = JwtOk (UserDoc._id u).
Proof.
  cbn [jwt_decode generateRefreshToken REFRESH_TOKEN_SECRET Demo.env].
  now rewrite demo_parse_token.
Qed.

Lemma demo_minted_nonempty (u : UserDoc.t) (t : nat) :
  generateRefreshToken Demo.env u t <> "".
Proof. cbn. unfold Demo.token. cbn [String.append]. discriminate. Qed.

(** Alice logs in at clock reading 6 and exchanges the token at reading 7. *)
Lemma login_token_is_redeemable_witness :
  exists r' db2 tok' id,
    refreshAccessToken Demo.env (Demo.refresh_request (VString "r1.111111")) 7
                       (snd (loginUser Demo.env Demo.login_request 6 Demo.db))
    = (Return r', db2) /\
    get "refreshToken" (data (json r')) = Some (JString tok') /\
    stored id (snd (loginUser Demo.env Demo.login_request 6 Demo.db))
    = Some (VString "r1.111111") /\
    stored id db2 = Some (VString tok').
Proof.
  eapply (login_token_is_redeemable
            Demo.env Demo.login_request 6 Demo.db _ _ "r1.111111"
            (Demo.refresh_request (VString "r1.111111")) 7).
  - exact demo_decode_minted.
  - exact demo_minted_nonempty.
  - cbv; reflexivity.
  - reflexivity.
  - reflexivity.
  - reflexivity.
Defined.

(** Bob looks at the channel of alice, asked for as "Alice". *)
Lemma channel_profile_reports_the_subscription_witness :
  exists c,
    getUserChannelProfile (VString "Alice") (Some 2) Cases.users Cases.subs = Return c /\
    exists s u,
      VString "Alice" = VString s /\ In u Cases.users /\
      UserDoc.username u = toLowerCase s /\
      Channel._id c = UserDoc._id u /\
      Channel.username c = toLowerCase s /\
      (Channel.isSubscribed c = true <->
       exists me, Some 2 = Some me /\ In (Subscription.mk me (UserDoc._id u)) Cases.subs) /\
      (Channel.isSubscribed c = true -> 0 < Channel.subscribersCount c).
Proof.
  eexists. split; [cbv; reflexivity|].
  apply (channel_profile_reports_the_subscription
           (VString "Alice") (Some 2) Cases.users Cases.subs).
  reflexivity.
Defined.


(** Alice sends a new full name only. *)
Lemma account_update_without_username_sets_it_to_null_witness :
  exists r,
    updateAccountDetails update_strings
      (Cases.rename (VString "Alice Cooper") VUndefined VUndefined) Cases.users
    = (Return r,
       snd (update_strings 1 (mkSetDoc (VString "Alice Cooper") VUndefined VNull)
                           Cases.users)) /\
    status r = 200.
Proof.
  apply (account_update_without_username_sets_it_to_null
           update_strings (Cases.rename (VString "Alice Cooper") VUndefined VUndefined)
           Cases.users (AccountReq.mk_caller 1 "alice")).
  - reflexivity.
  - intros s H. discriminate H.
  - reflexivity.
Defined.

(** The response to that update carries the refresh token of alice. *)
Lemma account_update_returns_the_refresh_token_witness :
  exists r db1,
    updateAccountDetails update_strings
      (Cases.rename (VString "Alice Cooper") VUndefined VUndefined) Cases.users
    = (Return r, db1) /\
    has_key "password" (data (json r)) = false /\
    get "refreshToken" (data (json r)) = Some (JString "r1.111").
Proof.
  do 2 eexists. split; [cbv; reflexivity|].
  destruct (account_update_returns_the_refresh_token
              update_strings (Cases.rename (VString "Alice Cooper") VUndefined VUndefined)
              Cases.users _ _ eq_refl)
    as (me & updated & Hme & Hstore & Hpw & Htok).
  split; [exact Hpw|].
  injection Hme as <-. cbv in Hstore. injection Hstore as <-.
  eapply Htok; reflexivity.
Defined.

(** ** The avatar *)

(** X21: an avatar update writes nothing unless the upload of the new file
    and the removal of the old one both succeed: it fails with 400 when the
    host does not answer "ok" to the removal, though the new file is
    uploaded by then, and every failure leaves the collection as it was.
    When it succeeds, the avatar of the caller's record is the uploaded url
    and nothing else is changed, no password and no refresh token. *)
Theorem avatar_update_is_all_or_nothing
        (env : Env) (media : Media) (req : AvatarReq.t) (db db1 : Collection)
        (o : Outcome Response) :
  updateUserAvatar env media req db = (o, db1) ->
  match o with
  | Throw e =>
      db1 = db /\
      (forall me f url,
          AvatarReq.user req = Some me -> AvatarReq.file req = Some f ->
          Files.path f <> "" ->
          uploadOnCloudinary env (VString (Files.path f)) = Some url ->
          removingCloudinaryFile media (publicId media (AvatarReq.avatar me))
          <> VString "ok" /\
          e = ApiError 400 "Failed to delete old cloundinary file")
  | Return r =>
      exists me f url,
        AvatarReq.user req = Some me /\ AvatarReq.file req = Some f /\
        uploadOnCloudinary env (VString (Files.path f)) = Some url /\
        removingCloudinaryFile media (publicId media (AvatarReq.avatar me)) = VString "ok" /\
        db1 = User.updateById (AvatarReq._id me) (set_avatar url) db /\
        Forall2 (fun u v => v = u \/ (UserDoc._id u = AvatarReq._id me /\ v = set_avatar url u))
                db db1 /\
        status r = 200
  end.
Proof.
  unfold updateUserAvatar. unfold_m. intros H. repeat split_run.
  all: try (split; [reflexivity|]; intros me' f' url' Hme Hf Hpath Hup).
  all: try (injection Hme as <-); try (injection Hf as <-); try discriminate.
  all: try solve
    [ exfalso;
      match goal with
      | Hb : negb (negb (String.eqb ?p "")) = true, Hp : ?p <> "" |- _ =>
          rewrite negb_involutive in Hb; apply String.eqb_eq in Hb; contradiction
      end
    | exfalso; congruence
    | split; [|reflexivity]; intros Hok;
      match goal with Hb : negb (strict_eq ?v _) = true |- _ =>
        rewrite Hok in Hb; discriminate Hb end ].
  do 3 eexists. repeat split; try reflexivity; try eassumption.
  - match goal with Hb : negb (strict_eq ?v _) = false |- ?v = _ =>
      apply negb_false_iff in Hb; destruct v; try discriminate Hb;
      apply String.eqb_eq in Hb; now subst end.
  - match goal with |- Forall2 _ ?d (User.updateById ?i ?f ?d) =>
      generalize d; intros l; induction l as [|u rest IH]; simpl; [constructor|];
      destruct (UserDoc._id u =? i) eqn:Hid end.
    + apply Nat.eqb_eq in Hid. constructor; [now right|].
      clear. induction rest; constructor; auto.
    + constructor; [now left|exact IH].
Qed.

(** Alice replaces an avatar that the host has lost: the update is refused. *)
Lemma avatar_update_is_all_or_nothing_witness :
  updateUserAvatar Demo.env Cases.media (Cases.new_avatar "gone") Demo.db
  = (Throw (ApiError 400 "Failed to delete old cloundinary file"), Demo.db) /\
  removingCloudinaryFile Cases.media (publicId Cases.media "gone") <> VString "ok".
Proof.
  split; [reflexivity|].
  destruct (avatar_update_is_all_or_nothing
              Demo.env Cases.media (Cases.new_avatar "gone") Demo.db Demo.db
              (Throw (ApiError 400 "Failed to delete old cloundinary file")) eq_refl)
    as [_ H].
  destruct (H (AvatarReq.mk_caller 1 "gone") (Files.mk_file "tmp/new.png")
              "https://media.example/tmp/new.png" eq_refl eq_refl
              ltac:(discriminate) eq_refl) as [Hne _].
  exact Hne.
Defined.

(** A field of two spaces. *)
Lemma blank_iff_white_space_only_witness :
  blank (VString "  ") = true <-> exists s, VString "  " = VString s /\ all_whitespace s = true.
Proof.
  apply (blank_iff_white_space_only (VString "  ")). reflexivity.
Defined.

(** Bob asks for the channel of a name of two spaces. *)
Lemma channel_profile_400_iff_witness :
  getUserChannelProfile (VString "  ") (Some 2) Cases.users Cases.subs
  = Throw (ApiError 400 "Username is missing")
  <-> (forall s, VString "  " = VString s -> all_whitespace s = true).
Proof.
  apply (channel_profile_400_iff (VString "  ") (Some 2) Cases.users Cases.subs).
  reflexivity.
Defined.
